(** * Order & supply-chain consistency engine of scp-swe (backend/app)

    Shallow embedding of the services [OrderService], [LinkService],
    [ProductService] (catalog, product pages, product updates) and
    [ConnectionManagementService] (block, unblock, remove).

    - The database session is a record of tables: rows fetched by primary
      key ([db.get]) live in a [gmap Z _]; tables read through [select ...
      where] queries are lists of rows.
    - A request runs in one session that is committed at the end of the
      service call; an [HTTPException] leaves the session uncommitted, so
      the request's writes are rolled back ([after_request]).
    - Prices and amounts ([Numeric]) are modelled as integers (cents). *)

From stdpp Require Import base gmap list strings.
From Stdlib Require Import ZArith Lia.

Local Open Scope Z_scope.

(** ** Enums (app/models) *)

Module CompanyType.
Inductive t := SUPPLIER | CONSUMER.
Global Instance t_eq_dec : EqDecision t.
Proof. solve_decision. Defined.
End CompanyType.

Module UserRole.
Inductive t := CONSUMER | SUPPLIER_OWNER | SUPPLIER_MANAGER | SUPPLIER_SALES.
Global Instance t_eq_dec : EqDecision t.
Proof. solve_decision. Defined.
End UserRole.

Module OrderStatus.
Inductive t := PENDING | ACCEPTED | REJECTED | IN_DELIVERY | COMPLETED | CANCELLED.
Global Instance t_eq_dec : EqDecision t.
Proof. solve_decision. Defined.
End OrderStatus.

Module LinkStatus.
Inductive t := PENDING | APPROVED | REJECTED | BLOCKED.
Global Instance t_eq_dec : EqDecision t.
Proof. solve_decision. Defined.
End LinkStatus.

(** ** Rows (app/models) *)

Record Company := {
  company_id : Z;
  company_type : CompanyType.t;
  company_is_active : bool }.

Record User := {
  user_id : Z;
  role : UserRole.t;
  user_company_id : option Z }.  (* nullable foreign key *)

Record Product := {
  product_id : Z;
  product_supplier_id : Z;
  price : Z;
  stock_quantity : Z;
  min_order_qty : Z;
  product_is_active : bool }.

Record Order := {
  order_id : Z;
  consumer_id : Z;
  order_supplier_id : Z;
  status : OrderStatus.t;
  total_amount : Z }.

(** [order_items] has the composite primary key (order_id, product_id). *)
Record OrderItem := {
  item_order_id : Z;
  item_product_id : Z;
  quantity : Z;
  unit_price_at_time : Z }.

Record Link := {
  link_id : Z;
  link_supplier_id : Z;
  link_consumer_id : Z;
  link_status : LinkStatus.t }.

Record CompanyBlacklist := {
  blacklist_id : Z;
  bl_supplier_id : Z;
  bl_consumer_id : Z;
  blocked_by : option Z;
  reason : option string }.

(** The session's view of the database; [next_*] are the autoincrement
    counters of the tables whose ids the services read back. *)
Record DB := {
  companies : gmap Z Company;
  products : gmap Z Product;
  orders : gmap Z Order;
  order_items : list OrderItem;
  links : list Link;
  company_blacklist : list CompanyBlacklist;
  next_order_id : Z;
  next_link_id : Z;
  next_blacklist_id : Z }.

Definition set_products (db : DB) (ps : gmap Z Product) : DB :=
  {| companies := companies db; products := ps; orders := orders db;
     order_items := order_items db; links := links db;
     company_blacklist := company_blacklist db; next_order_id := next_order_id db;
     next_link_id := next_link_id db; next_blacklist_id := next_blacklist_id db |}.

Definition set_orders (db : DB) (os : gmap Z Order) : DB :=
  {| companies := companies db; products := products db; orders := os;
     order_items := order_items db; links := links db;
     company_blacklist := company_blacklist db; next_order_id := next_order_id db;
     next_link_id := next_link_id db; next_blacklist_id := next_blacklist_id db |}.

Definition with_stock (p : Product) (n : Z) : Product :=
  {| product_id := product_id p; product_supplier_id := product_supplier_id p;
     price := price p; stock_quantity := n; min_order_qty := min_order_qty p;
     product_is_active := product_is_active p |}.

Definition with_status (o : Order) (s : OrderStatus.t) : Order :=
  {| order_id := order_id o; consumer_id := consumer_id o;
     order_supplier_id := order_supplier_id o; status := s;
     total_amount := total_amount o |}.

(** ** Request schemas (app/schemas) *)

Record OrderItemCreate := { req_product_id : Z; req_quantity : Z }.
Record OrderCreate := { od_supplier_id : Z; od_items : list OrderItemCreate }.
Record LinkCreate := { lc_supplier_id : Z }.
Record BlacklistCreate := { bc_consumer_id : Z; bc_reason : option string }.

(** ** Errors: the [HTTPException]s the services raise, by raise site *)

Inductive detail :=
  (* OrderService.create_order *)
  | only_consumers_create_orders | invalid_supplier | no_approved_link
  | product_not_found | product_wrong_supplier | product_not_active
  | below_min_order_qty | insufficient_stock_at_creation
  (* OrderService.update_order_status and the inventory helpers *)
  | order_not_found | not_your_order | consumers_only_cancel
  | cannot_cancel_in_state | insufficient_permissions
  | inventory_product_missing | insufficient_stock
  (* ProductService.get_catalog_for_consumer *)
  | no_approved_link_with_supplier
  (* LinkService.create_link_request *)
  | only_consumers_request_links | supplier_company_not_found
  | target_not_supplier | link_request_exists
  (* ConnectionManagementService.block_consumer *)
  | consumer_company_not_found | already_blacklisted
  (* routers *)
  | insufficient_role | only_owners_managers_block | no_associated_company
  (* LinkService.update_link_status *)
  | link_not_found | not_own_company_links
  (* ConnectionManagementService.unblock_consumer / remove_connection *)
  | consumer_not_blacklisted | only_owners_managers_remove | not_own_company_connections
  | connection_not_found
  (* ProductService.update_product / get_product_by_id *)
  | only_owners_managers_update | update_product_not_found | not_your_product_update
  | get_product_not_found | access_denied_no_link | access_denied_not_your_product
  (* OrderService.get_order_by_id *)
  | get_order_not_found | order_access_denied.

Inductive error :=
  | HTTPException (status_code : Z) (d : detail)
  | MultipleResultsFound          (* scalar_one_or_none on two or more rows *)
  | RequestValidationError.       (* pydantic rejects the request body *)

(** ** The result monad of a service call *)

Inductive result (A : Type) : Type :=
  | Ok (a : A)
  | Err (e : error).
Arguments Ok {A} a.
Arguments Err {A} e.

Global Instance result_ret : MRet result := λ A a, Ok a.
Global Instance result_bind : MBind result :=
  λ A B f r, match r with Ok a => f a | Err e => Err e end.

Definition raise {A} (code : Z) (d : detail) : result A := Err (HTTPException code d).

(** The database state after the request: the session is committed on
    success and rolled back when the service raises. *)
Definition after_request {A} (r : result (A * DB)) (db : DB) : DB :=
  match r with Ok (_, db') => db' | Err _ => db end.

Definition scalar_one_or_none {A} (rows : list A) : result (option A) :=
  match rows with
  | [] => Ok None
  | [x] => Ok (Some x)
  | _ => Err MultipleResultsFound
  end.

(** [await db.get(Company, company_id)] with a nullable id *)
Definition get_company (db : DB) (k : option Z) : option Company :=
  k ≫= λ k, companies db !! k.

Definition company_has_type (db : DB) (k : option Z) (t : CompanyType.t) : bool :=
  match get_company db k with
  | Some c => bool_decide (company_type c = t)
  | None => false
  end.

(** ** OrderService.create_order *)

(** One entry of [order_items_data]. *)
Record OrderItemData := {
  d_product_id : Z;
  d_quantity : Z;
  d_unit_price : Z }.

(** The loop over [order_data.items]: each product must exist, belong to
    the supplier, be active, meet the minimum order quantity and the soft
    stock check. *)
Fixpoint check_order_items (db : DB) (supplier_id : Z) (items : list OrderItemCreate)
    : result (list OrderItemData) :=
  match items with
  | [] => mret []
  | item :: rest =>
      match products db !! req_product_id item with
      | None => raise 404 product_not_found
      | Some product =>
          if bool_decide (product_supplier_id product ≠ supplier_id) then
            raise 400 product_wrong_supplier
          else if negb (product_is_active product) then raise 400 product_not_active
          else if req_quantity item <? min_order_qty product then raise 400 below_min_order_qty
          else if stock_quantity product <? req_quantity item then
            raise 400 insufficient_stock_at_creation
          else
            rest' ← check_order_items db supplier_id rest;
            mret ({| d_product_id := product_id product; d_quantity := req_quantity item;
                     d_unit_price := price product |} :: rest')
      end
  end.

(** [select(Link).where(consumer_id == ..., supplier_id == ..., status == APPROVED)] *)
Definition approved_link_rows (db : DB) (consumer_cid : Z) (supplier_id : Z) : list Link :=
  filter (λ l, link_consumer_id l = consumer_cid ∧ link_supplier_id l = supplier_id
               ∧ link_status l = LinkStatus.APPROVED) (links db).

Definition create_order (db : DB) (consumer : User) (order_data : OrderCreate)
    : result (Order * DB) :=
  if negb (company_has_type db (user_company_id consumer) CompanyType.CONSUMER) then
    raise 403 only_consumers_create_orders
  else match user_company_id consumer with
  | None => raise 403 only_consumers_create_orders
  | Some cid =>
  if negb (company_has_type db (Some (od_supplier_id order_data)) CompanyType.SUPPLIER) then
    raise 400 invalid_supplier
  else
    link ← scalar_one_or_none (approved_link_rows db cid (od_supplier_id order_data));
    match link with
    | None => raise 403 no_approved_link
    | Some _ =>
        order_items_data ← check_order_items db (od_supplier_id order_data) (od_items order_data);
        let total := foldr (λ d acc, d_unit_price d * d_quantity d + acc) 0 order_items_data in
        let oid := next_order_id db in
        let new_order := {| order_id := oid; consumer_id := cid;
                            order_supplier_id := od_supplier_id order_data;
                            status := OrderStatus.PENDING; total_amount := total |} in
        let new_items := map (λ d, {| item_order_id := oid; item_product_id := d_product_id d;
                                      quantity := d_quantity d;
                                      unit_price_at_time := d_unit_price d |}) order_items_data in
        mret (new_order,
              {| companies := companies db; products := products db;
                 orders := <[oid := new_order]> (orders db);
                 order_items := order_items db ++ new_items; links := links db;
                 company_blacklist := company_blacklist db; next_order_id := oid + 1;
                 next_link_id := next_link_id db; next_blacklist_id := next_blacklist_id db |})
    end
  end.

(** ** OrderService._decrement_inventory / _restore_inventory *)

(** [select(OrderItem).where(OrderItem.order_id == order.id)] *)
Definition items_of (db : DB) (oid : Z) : list OrderItem :=
  filter (λ it, item_order_id it = oid) (order_items db).

Fixpoint decrement_items (ps : gmap Z Product) (items : list OrderItem)
    : result (gmap Z Product) :=
  match items with
  | [] => mret ps
  | item :: rest =>
      match ps !! item_product_id item with
      | None => raise 500 inventory_product_missing
      | Some product =>
          if stock_quantity product <? quantity item then raise 400 insufficient_stock
          else decrement_items
                 (<[item_product_id item := with_stock product (stock_quantity product - quantity item)]> ps)
                 rest
      end
  end.

Definition decrement_inventory (db : DB) (order : Order) : result DB :=
  ps ← decrement_items (products db) (items_of db (order_id order));
  mret (set_products db ps).

Fixpoint restore_items (ps : gmap Z Product) (items : list OrderItem) : gmap Z Product :=
  match items with
  | [] => ps
  | item :: rest =>
      restore_items
        (match ps !! item_product_id item with
         | Some product =>
             <[item_product_id item := with_stock product (stock_quantity product + quantity item)]> ps
         | None => ps
         end) rest
  end.

Definition restore_inventory (db : DB) (order : Order) : DB :=
  set_products db (restore_items (products db) (items_of db (order_id order))).

(** ** OrderService.update_order_status *)

Definition check_order_permission (user : User) (order : Order) (new_status : OrderStatus.t)
    : result unit :=
  match role user with
  | UserRole.CONSUMER =>
      if bool_decide (user_company_id user ≠ Some (consumer_id order)) then raise 403 not_your_order
      else if bool_decide (new_status ≠ OrderStatus.CANCELLED) then raise 403 consumers_only_cancel
      else if bool_decide (status order ∉ [OrderStatus.PENDING; OrderStatus.ACCEPTED]) then
        raise 400 cannot_cancel_in_state
      else mret ()
  | UserRole.SUPPLIER_OWNER | UserRole.SUPPLIER_MANAGER | UserRole.SUPPLIER_SALES =>
      if bool_decide (user_company_id user ≠ Some (order_supplier_id order)) then
        raise 403 not_your_order
      else mret ()
  (* the [else: Insufficient permissions] branch is unreachable: UserRole
     has exactly these four members *)
  end.

Definition update_order_status (db : DB) (oid : Z) (user : User) (new_status : OrderStatus.t)
    : result (Order * DB) :=
  match orders db !! oid with
  | None => raise 404 order_not_found
  | Some order =>
      _ ← check_order_permission user order new_status;
      db1 ← (if bool_decide (new_status = OrderStatus.ACCEPTED ∧ status order = OrderStatus.PENDING)
             then decrement_inventory db order else mret db);
      let db2 :=
        if bool_decide (new_status ∈ [OrderStatus.CANCELLED; OrderStatus.REJECTED]) then
          if bool_decide (status order = OrderStatus.ACCEPTED) then restore_inventory db1 order
          else db1
        else db1 in
      let order' := with_status order new_status in
      mret (order', set_orders db2 (<[oid := order']> (orders db2)))
  end.

(** ** LinkService *)

(** [get_approved_supplier_ids]: the [supplier_id] column of the consumer's
    APPROVED links. *)
Definition get_approved_supplier_ids (db : DB) (consumer_company_id : option Z) : list Z :=
  link_supplier_id <$>
    (filter (λ l, consumer_company_id = Some (link_consumer_id l)
                  ∧ link_status l = LinkStatus.APPROVED) (links db)).

(** [select(Link).where(supplier_id == ..., consumer_id == ...)], any status *)
Definition link_rows_for (db : DB) (supplier_id consumer_cid : Z) : list Link :=
  filter (λ l, link_supplier_id l = supplier_id ∧ link_consumer_id l = consumer_cid) (links db).

Definition create_link_request (db : DB) (consumer : User) (link_data : LinkCreate)
    : result (Link * DB) :=
  if negb (company_has_type db (user_company_id consumer) CompanyType.CONSUMER) then
    raise 403 only_consumers_request_links
  else match user_company_id consumer with
  | None => raise 403 only_consumers_request_links
  | Some cid =>
  match companies db !! lc_supplier_id link_data with
  | None => raise 404 supplier_company_not_found
  | Some supplier_company =>
  if bool_decide (company_type supplier_company ≠ CompanyType.SUPPLIER) then
    raise 400 target_not_supplier
  else
    existing_link ← scalar_one_or_none (link_rows_for db (lc_supplier_id link_data) cid);
    match existing_link with
    | Some _ => raise 400 link_request_exists
    | None =>
        let new_link := {| link_id := next_link_id db; link_supplier_id := lc_supplier_id link_data;
                           link_consumer_id := cid; link_status := LinkStatus.PENDING |} in
        mret (new_link,
              {| companies := companies db; products := products db; orders := orders db;
                 order_items := order_items db; links := links db ++ [new_link];
                 company_blacklist := company_blacklist db; next_order_id := next_order_id db;
                 next_link_id := next_link_id db + 1;
                 next_blacklist_id := next_blacklist_id db |})
    end
  end
  end.

(** ** ProductService.get_catalog_for_consumer *)

(** [select(Product)] over the whole table, in key order *)
Definition product_rows (db : DB) : list Product := snd <$> map_to_list (products db).

Definition get_catalog_for_consumer (db : DB) (consumer : User) (supplier_id : option Z)
    : result (list Product) :=
  let approved_supplier_ids := get_approved_supplier_ids db (user_company_id consumer) in
  match approved_supplier_ids with
  | [] => mret []
  | _ =>
      let query := filter (λ p, product_supplier_id p ∈ approved_supplier_ids
                                ∧ product_is_active p = true ∧ 0 < stock_quantity p)
                          (product_rows db) in
      (* [if supplier_id:] — None and 0 are both falsy *)
      match supplier_id with
      | Some sid =>
          if bool_decide (sid ≠ 0) then
            if bool_decide (sid ∉ approved_supplier_ids) then raise 403 no_approved_link_with_supplier
            else mret (filter (λ p, product_supplier_id p = sid) query)
          else mret query
      | None => mret query
      end
  end.

(** ** ConnectionManagementService.block_consumer *)

Definition open_order_statuses : list OrderStatus.t :=
  [OrderStatus.PENDING; OrderStatus.ACCEPTED; OrderStatus.IN_DELIVERY].

Definition between (supplier_id consumer_cid : Z) (o : Order) : Prop :=
  order_supplier_id o = supplier_id ∧ consumer_id o = consumer_cid.

(** [update(Order).where(pair, status in open).values(status=REJECTED)] *)
Definition reject_open_orders (supplier_id consumer_cid : Z) (os : gmap Z Order) : gmap Z Order :=
  (λ o, if bool_decide (between supplier_id consumer_cid o ∧ status o ∈ open_order_statuses)
        then with_status o OrderStatus.REJECTED else o) <$> os.

(** [delete(Link).where(pair)] *)
Definition delete_links (supplier_id consumer_cid : Z) (ls : list Link) : list Link :=
  filter (λ l, ¬ (link_supplier_id l = supplier_id ∧ link_consumer_id l = consumer_cid)) ls.

Definition block_consumer (db : DB) (supplier_id : Z) (blacklist_data : BlacklistCreate)
    (blocker_user : User) : result (CompanyBlacklist * DB) :=
  let cid := bc_consumer_id blacklist_data in
  match companies db !! cid with
  | None => raise 404 consumer_company_not_found
  | Some _ =>
      existing ← scalar_one_or_none
                   (filter (λ e, bl_supplier_id e = supplier_id ∧ bl_consumer_id e = cid)
                           (company_blacklist db));
      match existing with
      | Some _ => raise 400 already_blacklisted
      | None =>
          let entry := {| blacklist_id := next_blacklist_id db; bl_supplier_id := supplier_id;
                          bl_consumer_id := cid; blocked_by := Some (user_id blocker_user);
                          reason := bc_reason blacklist_data |} in
          mret (entry,
                {| companies := companies db; products := products db;
                   orders := reject_open_orders supplier_id cid (orders db);
                   order_items := order_items db;
                   links := delete_links supplier_id cid (links db);
                   company_blacklist := company_blacklist db ++ [entry];
                   next_order_id := next_order_id db; next_link_id := next_link_id db;
                   next_blacklist_id := next_blacklist_id db + 1 |})
      end
  end.

(** ** Routers (app/routers): the endpoints that change orders and stock *)

(** [core.security.require_roles] *)
Definition require_roles (roles : list UserRole.t) (user : User) : result unit :=
  if bool_decide (role user ∈ roles) then mret () else raise 403 insufficient_role.

(** Pydantic validation of [OrderCreate]: [items] has [min_length=1] and
    every [OrderItemCreate.quantity] is [gt=0]. *)
Definition order_create_valid (order_data : OrderCreate) : bool :=
  bool_decide (od_items order_data ≠ []) && forallb (λ it, 0 <? req_quantity it) (od_items order_data).

Inductive Request :=
  | PostOrder (user : User) (order_data : OrderCreate)               (* POST /orders/ *)
  | PutOrderStatus (oid : Z) (user : User) (new_status : OrderStatus.t)
                                                                      (* PUT /orders/{id}/status *)
  | PostBlock (user : User) (blacklist_data : BlacklistCreate).     (* POST /connections/block *)

Definition route_create_order (db : DB) (user : User) (order_data : OrderCreate)
    : result (Order * DB) :=
  if negb (order_create_valid order_data) then Err RequestValidationError
  else _ ← require_roles [UserRole.CONSUMER] user; create_order db user order_data.

Definition route_block_consumer (db : DB) (user : User) (blacklist_data : BlacklistCreate)
    : result (CompanyBlacklist * DB) :=
  if bool_decide (role user ∉ [UserRole.SUPPLIER_OWNER; UserRole.SUPPLIER_MANAGER]) then
    raise 403 only_owners_managers_block
  else match user_company_id user with
  | None => raise 400 no_associated_company
  | Some sid => block_consumer db sid blacklist_data user
  end.

Definition handle (db : DB) (req : Request) : DB :=
  match req with
  | PostOrder user order_data => after_request (route_create_order db user order_data) db
  | PutOrderStatus oid user new_status => after_request (update_order_status db oid user new_status) db
  | PostBlock user blacklist_data => after_request (route_block_consumer db user blacklist_data) db
  end.

Definition run_requests (db : DB) (reqs : list Request) : DB := fold_left handle reqs db.

(** ** LinkService.update_link_status *)

Definition set_links (db : DB) (ls : list Link) : DB :=
  {| companies := companies db; products := products db; orders := orders db;
     order_items := order_items db; links := ls;
     company_blacklist := company_blacklist db; next_order_id := next_order_id db;
     next_link_id := next_link_id db; next_blacklist_id := next_blacklist_id db |}.

Definition set_blacklist (db : DB) (bl : list CompanyBlacklist) : DB :=
  {| companies := companies db; products := products db; orders := orders db;
     order_items := order_items db; links := links db;
     company_blacklist := bl; next_order_id := next_order_id db;
     next_link_id := next_link_id db; next_blacklist_id := next_blacklist_id db |}.

(** [await db.get(Link, link_id)]: the row with that primary key *)
Definition get_link (db : DB) (lid : Z) : option Link :=
  List.find (λ l, bool_decide (link_id l = lid)) (links db).

Definition with_link_status (l : Link) (s : LinkStatus.t) : Link :=
  {| link_id := link_id l; link_supplier_id := link_supplier_id l;
     link_consumer_id := link_consumer_id l; link_status := s |}.

(** [link.status = status_update.status] on the row [db.get] returned *)
Fixpoint set_link_status (lid : Z) (s : LinkStatus.t) (ls : list Link) : list Link :=
  match ls with
  | [] => []
  | l :: rest =>
      if bool_decide (link_id l = lid) then with_link_status l s :: rest
      else l :: set_link_status lid s rest
  end.

Definition update_link_status (db : DB) (lid : Z) (user : User) (new_status : LinkStatus.t)
    : result (Link * DB) :=
  match get_link db lid with
  | None => raise 404 link_not_found
  | Some link =>
      if bool_decide (user_company_id user ≠ Some (link_supplier_id link)) then
        raise 403 not_own_company_links
      else if bool_decide (role user ∉ [UserRole.SUPPLIER_OWNER; UserRole.SUPPLIER_MANAGER;
                                        UserRole.SUPPLIER_SALES]) then
        raise 403 insufficient_permissions
      else mret (with_link_status link new_status,
                 set_links db (set_link_status lid new_status (links db)))
  end.

(** ** ConnectionManagementService.unblock_consumer / is_consumer_blacklisted /
    remove_connection *)

(** [select(CompanyBlacklist).where(supplier_id == ..., consumer_id == ...)] *)
Definition blacklist_rows (db : DB) (supplier_id consumer_cid : Z) : list CompanyBlacklist :=
  filter (λ e, bl_supplier_id e = supplier_id ∧ bl_consumer_id e = consumer_cid)
         (company_blacklist db).

(** [await db.delete(blacklist_entry)]: deletes the row by primary key *)
Definition unblock_consumer (db : DB) (supplier_id consumer_cid : Z) : result (unit * DB) :=
  blacklist_entry ← scalar_one_or_none (blacklist_rows db supplier_id consumer_cid);
  match blacklist_entry with
  | None => raise 404 consumer_not_blacklisted
  | Some e =>
      mret ((), set_blacklist db (filter (λ e', blacklist_id e' ≠ blacklist_id e)
                                         (company_blacklist db)))
  end.

Definition is_consumer_blacklisted (db : DB) (supplier_id consumer_cid : Z) : result bool :=
  e ← scalar_one_or_none (blacklist_rows db supplier_id consumer_cid);
  mret (bool_decide (is_Some e)).

Definition remove_connection (db : DB) (supplier_id consumer_cid : Z) (user : User)
    : result (unit * DB) :=
  if bool_decide (role user ∉ [UserRole.SUPPLIER_OWNER; UserRole.SUPPLIER_MANAGER]) then
    raise 403 only_owners_managers_remove
  else if bool_decide (user_company_id user ≠ Some supplier_id) then
    raise 403 not_own_company_connections
  else
    link ← scalar_one_or_none (link_rows_for db supplier_id consumer_cid);
    match link with
    | None => raise 404 connection_not_found
    | Some l => mret ((), set_links db (filter (λ l', link_id l' ≠ link_id l) (links db)))
    end.

(** ** ProductService.update_product / get_product_by_id *)

(** [ProductUpdate] restricted to the columns of [Product] modelled here
    ([name] and the image upload are not modelled; the service ignores
    [ProductUpdate.image_url]). *)
Record ProductUpdate := {
  pu_price : option Z;
  pu_stock_quantity : option Z;
  pu_min_order_qty : option Z;
  pu_is_active : option bool }.

(** Its pydantic constraints: [price gt=0], [stock_quantity ge=0],
    [min_order_qty ge=1] on the fields that are given. *)
Definition product_update_valid (pu : ProductUpdate) : bool :=
  from_option (λ x, 0 <? x) true (pu_price pu)
  && from_option (λ x, 0 <=? x) true (pu_stock_quantity pu)
  && from_option (λ x, 1 <=? x) true (pu_min_order_qty pu).

(** The field updates of [update_product], with the auto-toggle of
    [is_active] from the new stock when no explicit flag is given. *)
Definition apply_product_update (p : Product) (pu : ProductUpdate) : Product :=
  {| product_id := product_id p; product_supplier_id := product_supplier_id p;
     price := from_option id (price p) (pu_price pu);
     stock_quantity := from_option id (stock_quantity p) (pu_stock_quantity pu);
     min_order_qty := from_option id (min_order_qty p) (pu_min_order_qty pu);
     product_is_active :=
       match pu_is_active pu with
       | Some b => b
       | None =>
           match pu_stock_quantity pu with
           | Some s => bool_decide (0 < s)
           | None => product_is_active p
           end
       end |}.

(** [update_product] without an image file *)
Definition update_product (db : DB) (pid : Z) (user : User) (product_data : ProductUpdate)
    : result (Product * DB) :=
  if bool_decide (role user ∉ [UserRole.SUPPLIER_OWNER; UserRole.SUPPLIER_MANAGER]) then
    raise 403 only_owners_managers_update
  else match products db !! pid with
  | None => raise 404 update_product_not_found
  | Some product =>
      if bool_decide (Some (product_supplier_id product) ≠ user_company_id user) then
        raise 403 not_your_product_update
      else
        let product' := apply_product_update product product_data in
        mret (product', set_products db (<[pid := product']> (products db)))
  end.

(** [PUT /products/{product_id}] without an image: the handler builds the
    [ProductUpdate] (pydantic rejects invalid fields) behind
    [require_roles([SUPPLIER_OWNER, SUPPLIER_MANAGER])]. *)
Definition route_update_product (db : DB) (user : User) (pid : Z) (product_data : ProductUpdate)
    : result (Product * DB) :=
  _ ← require_roles [UserRole.SUPPLIER_OWNER; UserRole.SUPPLIER_MANAGER] user;
  if negb (product_update_valid product_data) then Err RequestValidationError
  else update_product db pid user product_data.

Definition get_product_by_id (db : DB) (pid : Z) (user : User) : result Product :=
  match products db !! pid with
  | None => raise 404 get_product_not_found
  | Some product =>
      match role user with
      | UserRole.CONSUMER =>
          if bool_decide (product_supplier_id product
                            ∉ get_approved_supplier_ids db (user_company_id user)) then
            raise 403 access_denied_no_link
          else mret product
      | UserRole.SUPPLIER_OWNER | UserRole.SUPPLIER_MANAGER | UserRole.SUPPLIER_SALES =>
          if bool_decide (Some (product_supplier_id product) ≠ user_company_id user) then
            raise 403 access_denied_not_your_product
          else mret product
      end
  end.

(** ** OrderService.get_order_by_id *)

Definition get_order_by_id (db : DB) (oid : Z) (user : User) : result Order :=
  match orders db !! oid with
  | None => raise 404 get_order_not_found
  | Some order =>
      if bool_decide (user_company_id user ∉ [Some (consumer_id order); Some (order_supplier_id order)])
      then raise 403 order_access_denied
      else mret order
  end.

(** ** A small fixture: supplier 1, consumer 2, another consumer 3 *)

Definition supplier_co : Company := {| company_id := 1; company_type := CompanyType.SUPPLIER; company_is_active := true |}.
Definition consumer_co : Company := {| company_id := 2; company_type := CompanyType.CONSUMER; company_is_active := true |}.
Definition consumer_co3 : Company := {| company_id := 3; company_type := CompanyType.CONSUMER; company_is_active := true |}.

Definition owner_user : User := {| user_id := 10; role := UserRole.SUPPLIER_OWNER; user_company_id := Some 1 |}.
Definition consumer_user : User := {| user_id := 20; role := UserRole.CONSUMER; user_company_id := Some 2 |}.
Definition consumer_user3 : User := {| user_id := 30; role := UserRole.CONSUMER; user_company_id := Some 3 |}.

Definition prod_p : Product := {| product_id := 100; product_supplier_id := 1; price := 250;
  stock_quantity := 10; min_order_qty := 1; product_is_active := true |}.
Definition prod_q : Product := {| product_id := 101; product_supplier_id := 1; price := 100;
  stock_quantity := 3; min_order_qty := 1; product_is_active := true |}.

Definition fixture_db (ls : list Link) : DB :=
  {| companies := <[1 := supplier_co]> (<[2 := consumer_co]> (<[3 := consumer_co3]> ∅));
     products := <[100 := prod_p]> (<[101 := prod_q]> ∅);
     orders := ∅; order_items := []; links := ls; company_blacklist := [];
     next_order_id := 1; next_link_id := 1; next_blacklist_id := 1 |}.

Definition approved_link : Link := {| link_id := 1; link_supplier_id := 1; link_consumer_id := 2;
  link_status := LinkStatus.APPROVED |}.

Definition order_5p : OrderCreate := {| od_supplier_id := 1; od_items := [{| req_product_id := 100; req_quantity := 5 |}] |}.
Definition order_5p_2q : OrderCreate := {| od_supplier_id := 1;
  od_items := [{| req_product_id := 100; req_quantity := 5 |}; {| req_product_id := 101; req_quantity := 2 |}] |}.

Definition stock_of (db : DB) (k : Z) : option Z := stock_quantity <$> products db !! k.

(** The scenario of the spec: order 5 of P (stock 10), accept, reject. *)
Definition scenario_db : DB :=
  run_requests (fixture_db [approved_link])
    [PostOrder consumer_user order_5p;
     PutOrderStatus 1 owner_user OrderStatus.ACCEPTED].

Example scenario_accept : stock_of scenario_db 100 = Some 5.
Proof. vm_compute. reflexivity. Qed.

Example scenario_reject :
  stock_of (run_requests scenario_db [PutOrderStatus 1 owner_user OrderStatus.REJECTED]) 100 = Some 10.
Proof. vm_compute. reflexivity. Qed.

Example scenario_unlinked :
  create_order (fixture_db []) consumer_user order_5p = raise 403 no_approved_link.
Proof. vm_compute. reflexivity. Qed.

(** * Properties *)

(** ** General lemmas *)

Lemma filter_none {A} (P : A → Prop) `{∀ x, Decision (P x)} (l : list A) :
  (∀ x, x ∈ l → ¬ P x) → filter P l = [].
Proof.
  induction l as [|x l IH]; intros Hn; [done|].
  rewrite filter_cons_False.
  - apply IH. intros y Hy. apply Hn. set_solver.
  - apply Hn. set_solver.
Qed.

Lemma company_has_type_None db t : company_has_type db None t = false.
Proof. reflexivity. Qed.

(** ** Order creation is gated by an APPROVED link *)

(** No APPROVED link row for the (supplier, consumer company) pair. *)
Definition lacks_approved_link (db : DB) (cid : option Z) (supplier_id : Z) : Prop :=
  ∀ l, l ∈ links db → cid = Some (link_consumer_id l) → link_supplier_id l = supplier_id →
       link_status l ≠ LinkStatus.APPROVED.

Lemma approved_link_rows_empty db cid c supplier_id :
  lacks_approved_link db cid supplier_id → cid = Some c →
  approved_link_rows db c supplier_id = [].
Proof.
  intros Hno ->. apply filter_none. intros l Hl (H1 & H2 & H3).
  eapply Hno; eauto. by rewrite H1.
Qed.

(** C1 (amended). Without an APPROVED link for the exact pair,
    [create_order] fails and the database is left unchanged (no Order, no
    OrderItem); when the consumer's company is a CONSUMER company and the
    target is a SUPPLIER company, the failure is the 403 "no approved link"
    (earlier checks raise their own errors first: 403 when the user's
    company is not a CONSUMER company, 400 "Invalid supplier" when the
    target is not a SUPPLIER company). *)
Theorem create_order_gated_by_link (db : DB) (consumer : User) (order_data : OrderCreate) :
  lacks_approved_link db (user_company_id consumer) (od_supplier_id order_data) →
  (∃ e, create_order db consumer order_data = Err e) ∧
  after_request (create_order db consumer order_data) db = db ∧
  (company_has_type db (user_company_id consumer) CompanyType.CONSUMER = false →
   create_order db consumer order_data = raise 403 only_consumers_create_orders) ∧
  (company_has_type db (user_company_id consumer) CompanyType.CONSUMER = true →
   company_has_type db (Some (od_supplier_id order_data)) CompanyType.SUPPLIER = false →
   create_order db consumer order_data = raise 400 invalid_supplier) ∧
  (company_has_type db (user_company_id consumer) CompanyType.CONSUMER = true →
   company_has_type db (Some (od_supplier_id order_data)) CompanyType.SUPPLIER = true →
   create_order db consumer order_data = raise 403 no_approved_link).
Proof.
  intros Hno. unfold create_order.
  destruct (company_has_type db (user_company_id consumer) CompanyType.CONSUMER) eqn:E1;
    simpl; [|naive_solver].
  destruct (user_company_id consumer) as [c|] eqn:Ec;
    [|by rewrite company_has_type_None in E1].
  destruct (company_has_type db (Some (od_supplier_id order_data)) CompanyType.SUPPLIER);
    simpl; [|naive_solver].
  rewrite (approved_link_rows_empty db (Some c) c); [|exact Hno|done].
  simpl. naive_solver.
Qed.

Lemma create_order_gated_by_link_witness :
  lacks_approved_link (fixture_db []) (Some 2) 1 ∧
  create_order (fixture_db []) consumer_user order_5p = raise 403 no_approved_link.
Proof.
  assert (H : lacks_approved_link (fixture_db []) (Some 2) 1).
  { intros l Hl. exfalso. simpl in Hl. set_solver. }
  split; [exact H|].
  destruct (create_order_gated_by_link (fixture_db []) consumer_user order_5p H)
    as (_ & _ & _ & _ & H5).
  apply H5; vm_compute; reflexivity.
Defined.

(** C1: an order to a target that is not a SUPPLIER company, with no
    APPROVED link, fails with 400 "Invalid supplier", not with 403. *)
Lemma create_order_unlinked_not_forbidden :
  lacks_approved_link (fixture_db []) (Some 2) 3 ∧
  create_order (fixture_db []) consumer_user
    {| od_supplier_id := 3; od_items := [{| req_product_id := 100; req_quantity := 5 |}] |}
  = raise 400 invalid_supplier.
Proof.
  split.
  - intros l Hl. exfalso. simpl in Hl. set_solver.
  - vm_compute. reflexivity.
Qed.

(** ** Inventory arithmetic *)

(** Total quantity the items ask of product [k]. *)
Definition qty_for (k : Z) (items : list OrderItem) : Z :=
  foldr (λ it acc, (if bool_decide (item_product_id it = k) then quantity it else 0) + acc) 0 items.

(** The product map with product [k]'s stock shifted by [delta k]. *)
Definition shift_stock (delta : Z → Z) (ps : gmap Z Product) (k : Z) : option Product :=
  (λ p, with_stock p (stock_quantity p + delta k)) <$> ps !! k.

Lemma with_stock_twice p a b : with_stock (with_stock p a) b = with_stock p b.
Proof. reflexivity. Qed.

Lemma with_stock_self p : with_stock p (stock_quantity p) = p.
Proof. by destruct p. Qed.

Lemma qty_for_cons k it rest :
  qty_for k (it :: rest) = (if bool_decide (item_product_id it = k) then quantity it else 0) + qty_for k rest.
Proof. reflexivity. Qed.

Create Rewrite HintDb inventory.
Global Hint Rewrite with_stock_twice qty_for_cons : inventory.

Ltac lookup_cases k k' :=
  destruct (decide (k = k')) as [<-|?];
  [rewrite ?lookup_insert_eq | rewrite ?lookup_insert_ne by done];
  autorewrite with inventory; simpl;
  repeat case_bool_decide; try congruence.

(** [_restore_inventory] adds each item's quantity to the products that
    still exist and skips the others. *)
Lemma restore_items_lookup ps items k :
  restore_items ps items !! k = shift_stock (λ k, qty_for k items) ps k.
Proof.
  revert ps. induction items as [|it rest IH]; intros ps; simpl.
  - unfold shift_stock. destruct (ps !! k) as [p|]; simpl; [|done].
    by rewrite Z.add_0_r, with_stock_self.
  - rewrite IH. unfold shift_stock.
    destruct (ps !! item_product_id it) as [p|] eqn:Hp.
    + lookup_cases (item_product_id it) k.
      * rewrite Hp. simpl. do 2 f_equal. lia.
      * destruct (ps !! k); simpl; [do 2 f_equal; lia|done].
    + destruct (decide (item_product_id it = k)) as [<-|?].
      * by rewrite Hp.
      * rewrite bool_decide_false by done. destruct (ps !! k); simpl; [do 2 f_equal; lia|done].
Qed.

(** Acceptance with enough stock: every product loses its items' quantity. *)
Lemma decrement_items_ok ps items :
  NoDup (item_product_id <$> items) →
  (∀ it, it ∈ items → is_Some (ps !! item_product_id it)) →
  (∀ it p, it ∈ items → ps !! item_product_id it = Some p → quantity it ≤ stock_quantity p) →
  ∃ ps', decrement_items ps items = Ok ps' ∧
         ∀ k, ps' !! k = shift_stock (λ k, - qty_for k items) ps k.
Proof.
  revert ps. induction items as [|it rest IH]; intros ps Hnd Hex Henough; simpl.
  - exists ps. split; [done|]. intros k. unfold shift_stock.
    destruct (ps !! k) as [p|]; simpl; [|done]. by rewrite Z.add_0_r, with_stock_self.
  - destruct (Hex it) as [p Hp]; [set_solver|]. rewrite Hp.
    assert (Hle : quantity it ≤ stock_quantity p) by (apply (Henough it); [set_solver|done]).
    destruct (Z.ltb_spec (stock_quantity p) (quantity it)); [lia|].
    apply NoDup_cons in Hnd as [Hnotin Hnd].
    set (ps1 := <[item_product_id it := with_stock p (stock_quantity p - quantity it)]> ps).
    assert (Hother : ∀ it', it' ∈ rest → ps1 !! item_product_id it' = ps !! item_product_id it').
    { intros it' Hin'. apply lookup_insert_ne. intros Heq. apply Hnotin.
      rewrite Heq. by apply list_elem_of_fmap_2. }
    destruct (IH ps1) as (ps' & Hdec & Hps'); [done|..].
    + intros it' Hin'. rewrite Hother by done. apply Hex. set_solver.
    + intros it' p' Hin' Hp'. rewrite Hother in Hp' by done.
      apply (Henough it'); [set_solver|done].
    + exists ps'. split; [done|]. intros k. rewrite Hps'. unfold shift_stock, ps1.
      lookup_cases (item_product_id it) k.
      * rewrite Hp. simpl. do 2 f_equal. lia.
      * destruct (ps !! k); simpl; [do 2 f_equal; lia|done].
Qed.

(** Acceptance when some item asks for more than its product's stock. *)
Lemma decrement_items_insufficient ps items :
  NoDup (item_product_id <$> items) →
  (∀ it, it ∈ items → is_Some (ps !! item_product_id it)) →
  (∃ it p, it ∈ items ∧ ps !! item_product_id it = Some p ∧ stock_quantity p < quantity it) →
  decrement_items ps items = raise 400 insufficient_stock.
Proof.
  revert ps. induction items as [|it rest IH];
    intros ps Hnd Hex (it' & p' & Hin & Hp' & Hlt); [set_solver|]. simpl.
  destruct (Hex it) as [p Hp]; [set_solver|]. rewrite Hp.
  destruct (Z.ltb_spec (stock_quantity p) (quantity it)); [done|].
  apply NoDup_cons in Hnd as [Hnotin Hnd].
  apply elem_of_cons in Hin as [->|Hin]; [rewrite Hp in Hp'; injection Hp' as <-; lia|].
  assert (Hother : ∀ it'', it'' ∈ rest →
    <[item_product_id it := with_stock p (stock_quantity p - quantity it)]> ps !! item_product_id it''
    = ps !! item_product_id it'').
  { intros it'' Hin''. apply lookup_insert_ne. intros Heq. apply Hnotin.
    rewrite Heq. by apply list_elem_of_fmap_2. }
  apply IH; [done| |].
  - intros it'' Hin''. rewrite Hother by done. apply Hex. set_solver.
  - exists it', p'. rewrite Hother by done. done.
Qed.

(** ** update_order_status: permissions and the acceptance hard check *)

Lemma supplier_permission_ok user order new_status :
  role user ≠ UserRole.CONSUMER →
  user_company_id user = Some (order_supplier_id order) →
  check_order_permission user order new_status = Ok ().
Proof.
  intros Hr Hc. unfold check_order_permission.
  destruct (role user); [done| | |];
    rewrite bool_decide_false by (rewrite Hc; auto); reflexivity.
Qed.

(** C2. A PENDING order accepted by a supplier-side user of its supplier
    company (its items naming distinct, existing products, as the
    composite primary key and the foreign key of [order_items] ensure):
    when some item asks for more than the current stock, the request fails
    with 400 "Insufficient stock" and the database is unchanged (the order
    stays PENDING, no stock moves); otherwise the order becomes ACCEPTED
    and every product's stock drops by the quantity its items ask. *)
Theorem accept_hard_check (db : DB) (oid : Z) (order : Order) (user : User) :
  orders db !! oid = Some order →
  status order = OrderStatus.PENDING →
  role user ≠ UserRole.CONSUMER →
  user_company_id user = Some (order_supplier_id order) →
  NoDup (item_product_id <$> items_of db (order_id order)) →
  (∀ it, it ∈ items_of db (order_id order) → is_Some (products db !! item_product_id it)) →
  ((∃ it p, it ∈ items_of db (order_id order) ∧ products db !! item_product_id it = Some p ∧
            stock_quantity p < quantity it) →
   update_order_status db oid user OrderStatus.ACCEPTED = raise 400 insufficient_stock ∧
   after_request (update_order_status db oid user OrderStatus.ACCEPTED) db = db) ∧
  ((∀ it p, it ∈ items_of db (order_id order) → products db !! item_product_id it = Some p →
            quantity it ≤ stock_quantity p) →
   ∃ db', update_order_status db oid user OrderStatus.ACCEPTED
            = Ok (with_status order OrderStatus.ACCEPTED, db') ∧
          orders db' = <[oid := with_status order OrderStatus.ACCEPTED]> (orders db) ∧
          order_items db' = order_items db ∧
          ∀ k, products db' !! k
               = shift_stock (λ k, - qty_for k (items_of db (order_id order))) (products db) k).
Proof.
  intros Ho Hst Hr Hc Hnd Hex. unfold update_order_status. rewrite Ho.
  rewrite (supplier_permission_ok user order _ Hr Hc). simpl.
  rewrite bool_decide_true by done. unfold decrement_inventory. split.
  - intros Hshort. rewrite (decrement_items_insufficient _ _ Hnd Hex Hshort). done.
  - intros Henough. destruct (decrement_items_ok _ _ Hnd Hex Henough) as (ps' & -> & Hps').
    simpl. eexists. split; [reflexivity|]. done.
Qed.

Definition accept_db : DB := after_request (create_order (fixture_db [approved_link]) consumer_user order_5p_2q) (fixture_db [approved_link]).

Definition accept_order : Order := {| order_id := 1; consumer_id := 2; order_supplier_id := 1;
  status := OrderStatus.PENDING; total_amount := 1450 |}.

Lemma accept_hard_check_witness :
  orders accept_db !! 1 = Some accept_order ∧
  ∃ db', update_order_status accept_db 1 owner_user OrderStatus.ACCEPTED
           = Ok (with_status accept_order OrderStatus.ACCEPTED, db') ∧
         ∀ k, products db' !! k
              = shift_stock (λ k, - qty_for k (items_of accept_db 1)) (products accept_db) k.
Proof.
  split; [vm_compute; reflexivity|].
  destruct (accept_hard_check accept_db 1 accept_order owner_user) as [_ Hok];
    [vm_compute; reflexivity|reflexivity|discriminate|reflexivity| | |].
  - vm_compute. repeat constructor; set_solver.
  - intros it Hit. vm_compute in Hit.
    repeat (apply elem_of_cons in Hit as [->|Hit]; [eexists; vm_compute; reflexivity|]).
    set_solver.
  - destruct Hok as (db' & H1 & _ & _ & H4).
    + intros it p Hit Hp. vm_compute in Hit.
      repeat (apply elem_of_cons in Hit as [->|Hit];
              [vm_compute in Hp; injection Hp as <-; vm_compute; discriminate|]).
      set_solver.
    + exists db'. split; [exact H1|exact H4].
Defined.

(** ** update_order_status enforces no transition table *)





(** ** Catalog filter with an explicit supplier *)

(** C4 (code_bug). With no APPROVED link, [get_catalog_for_consumer]
    returns the empty list before looking at the supplier filter, so a
    filter outside the (empty) approved set is not refused; a filter of
    supplier id 0 is falsy and is ignored even outside the approved set. *)
Theorem catalog_filter_outside_approved_not_forbidden :
  get_approved_supplier_ids (fixture_db []) (Some 2) = [] ∧
  get_catalog_for_consumer (fixture_db []) consumer_user (Some 1) = Ok [] ∧
  get_approved_supplier_ids (fixture_db [approved_link]) (Some 2) = [1] ∧
  get_catalog_for_consumer (fixture_db [approved_link]) consumer_user (Some 0) = Ok [prod_q; prod_p].
Proof. split_and!; vm_compute; reflexivity. Qed.

(** ** Accept then cancel or reject: the round trip on stock *)

Lemma decrement_items_Ok ps items ps' :
  decrement_items ps items = Ok ps' →
  ∀ k, ps' !! k = shift_stock (λ k, - qty_for k items) ps k.
Proof.
  revert ps. induction items as [|it rest IH]; intros ps Hdec k; simpl in Hdec.
  - injection Hdec as <-. unfold shift_stock.
    destruct (ps !! k); simpl; [by rewrite Z.add_0_r, with_stock_self|done].
  - destruct (ps !! item_product_id it) as [p|] eqn:Hp; [|discriminate].
    destruct (stock_quantity p <? quantity it); [discriminate|].
    rewrite (IH _ Hdec). unfold shift_stock. lookup_cases (item_product_id it) k.
    + rewrite Hp. simpl. do 2 f_equal. lia.
    + destruct (ps !! k); simpl; [do 2 f_equal; lia|done].
Qed.

Lemma restore_after_decrement ps items ps' :
  decrement_items ps items = Ok ps' → restore_items ps' items = ps.
Proof.
  intros Hdec. apply map_eq. intros k.
  rewrite restore_items_lookup. unfold shift_stock at 1.
  rewrite (decrement_items_Ok _ _ _ Hdec k). unfold shift_stock.
  destruct (ps !! k) as [p|]; simpl; [|done].
  rewrite with_stock_twice. f_equal.
  replace (stock_quantity p + - qty_for k items + qty_for k items) with (stock_quantity p) by lia.
  apply with_stock_self.
Qed.

(** C5. Accepting a PENDING order and then cancelling or rejecting it
    (by any actor the second request admits) gives every product back
    exactly its stock from before the acceptance, for any items. *)
Theorem accept_then_cancel_restores (db : DB) (oid : Z) (order : Order) (user1 user2 : User)
    (st : OrderStatus.t) (o1 o2 : Order) (db1 db2 : DB) :
  orders db !! oid = Some order →
  status order = OrderStatus.PENDING →
  update_order_status db oid user1 OrderStatus.ACCEPTED = Ok (o1, db1) →
  st = OrderStatus.CANCELLED ∨ st = OrderStatus.REJECTED →
  update_order_status db1 oid user2 st = Ok (o2, db2) →
  products db2 = products db.
Proof.
  intros Ho Hst H1 Hst2 H2.
  unfold update_order_status in H1. rewrite Ho in H1.
  destruct (check_order_permission user1 order OrderStatus.ACCEPTED); simpl in H1; [|discriminate].
  rewrite bool_decide_true in H1 by done. unfold decrement_inventory in H1.
  destruct (decrement_items (products db) (items_of db (order_id order))) as [ps'|] eqn:Hd;
    simpl in H1; [|discriminate].
  injection H1 as <- <-.
  unfold update_order_status in H2. simpl in H2. rewrite lookup_insert_eq in H2.
  destruct (check_order_permission user2 _ st); simpl in H2; [|discriminate].
  destruct Hst2 as [-> | ->]; simpl in H2; injection H2 as <- <-; simpl;
    exact (restore_after_decrement _ _ _ Hd).
Qed.

Definition accepted_db : DB :=
  after_request (update_order_status accept_db 1 owner_user OrderStatus.ACCEPTED) accept_db.
Definition cancelled_db : DB :=
  after_request (update_order_status accepted_db 1 consumer_user OrderStatus.CANCELLED) accepted_db.

Lemma accept_then_cancel_restores_witness :
  stock_of accepted_db 100 = Some 5 ∧ stock_of accepted_db 101 = Some 1 ∧
  products cancelled_db = products accept_db.
Proof.
  split; [vm_compute; reflexivity|]. split; [vm_compute; reflexivity|].
  apply (accept_then_cancel_restores accept_db 1 accept_order owner_user consumer_user
           OrderStatus.CANCELLED (with_status accept_order OrderStatus.ACCEPTED)
           (with_status (with_status accept_order OrderStatus.ACCEPTED) OrderStatus.CANCELLED)
           accepted_db cancelled_db);
    [vm_compute; reflexivity|reflexivity|vm_compute; reflexivity|left; reflexivity|vm_compute; reflexivity].
Defined.

(** ** Catalog visibility *)

Lemma approved_supplier_ids_spec db cid s :
  s ∈ get_approved_supplier_ids db cid ↔
  ∃ l, l ∈ links db ∧ cid = Some (link_consumer_id l) ∧
       link_status l = LinkStatus.APPROVED ∧ link_supplier_id l = s.
Proof.
  unfold get_approved_supplier_ids. rewrite list_elem_of_fmap.
  split.
  - intros (l & -> & Hl). apply list_elem_of_filter in Hl as [[? ?] ?]. eauto.
  - intros (l & ? & ? & ? & <-). exists l. split; [done|].
    apply list_elem_of_filter. done.
Qed.

Lemma product_rows_spec db p : p ∈ product_rows db ↔ ∃ k, products db !! k = Some p.
Proof.
  unfold product_rows. rewrite list_elem_of_fmap. split.
  - intros ([k p'] & -> & Hin). apply elem_of_map_to_list in Hin. eauto.
  - intros (k & Hk). exists (k, p). split; [done|]. by apply elem_of_map_to_list.
Qed.

(** C6. Without a supplier filter the catalog a consumer gets holds a
    product exactly when it is a row of the product table, an APPROVED
    link joins its supplier to the consumer's company, it is active and
    its stock is positive. *)
Theorem catalog_visibility (db : DB) (consumer : User) :
  ∃ rows, get_catalog_for_consumer db consumer None = Ok rows ∧
  ∀ p, p ∈ rows ↔
       (∃ k, products db !! k = Some p) ∧
       (∃ l, l ∈ links db ∧ user_company_id consumer = Some (link_consumer_id l) ∧
             link_status l = LinkStatus.APPROVED ∧ link_supplier_id l = product_supplier_id p) ∧
       product_is_active p = true ∧ 0 < stock_quantity p.
Proof.
  unfold get_catalog_for_consumer.
  destruct (get_approved_supplier_ids db (user_company_id consumer)) as [|s ss] eqn:Hids.
  - exists []. split; [done|]. intros p. split; [set_solver|].
    intros (_ & Hl & _). apply (approved_supplier_ids_spec db _ (product_supplier_id p)) in Hl.
    rewrite Hids in Hl. set_solver.
  - eexists. split; [reflexivity|]. intros p.
    rewrite list_elem_of_filter, product_rows_spec, <- Hids, approved_supplier_ids_spec.
    naive_solver.
Qed.

(** ** Blacklist cascade *)

(** C7. A successful [block_consumer] commits three effects together: the
    blacklist entry for the pair is appended; every order of the pair in
    PENDING, ACCEPTED or IN_DELIVERY becomes REJECTED while every other
    order stays as it was and no product's stock moves; every link of the
    pair is deleted and every other link kept. *)
Theorem block_consumer_effects (db : DB) (supplier_id : Z) (data : BlacklistCreate)
    (blocker : User) (entry : CompanyBlacklist) (db' : DB) :
  block_consumer db supplier_id data blocker = Ok (entry, db') →
  company_blacklist db' = company_blacklist db ++ [entry] ∧
  bl_supplier_id entry = supplier_id ∧ bl_consumer_id entry = bc_consumer_id data ∧
  (∀ oid o, orders db !! oid = Some o →
     (between supplier_id (bc_consumer_id data) o → status o ∈ open_order_statuses →
      orders db' !! oid = Some (with_status o OrderStatus.REJECTED)) ∧
     (¬ (between supplier_id (bc_consumer_id data) o ∧ status o ∈ open_order_statuses) →
      orders db' !! oid = Some o)) ∧
  (∀ oid, orders db !! oid = None → orders db' !! oid = None) ∧
  products db' = products db ∧ order_items db' = order_items db ∧
  companies db' = companies db ∧
  (∀ l, l ∈ links db' ↔
        l ∈ links db ∧ ¬ (link_supplier_id l = supplier_id ∧ link_consumer_id l = bc_consumer_id data)).
Proof.
  intros H. unfold block_consumer in H.
  destruct (companies db !! bc_consumer_id data); [|discriminate].
  unfold scalar_one_or_none in H.
  destruct (filter _ (company_blacklist db)) as [|? [|? ?]]; simpl in H; try discriminate.
  injection H as <- <-. simpl.
  split_and!; try done.
  - intros oid o Ho. unfold reject_open_orders. rewrite lookup_fmap, Ho. simpl. split.
    + intros Hb Hs. by rewrite (bool_decide_true _ (conj Hb Hs)).
    + intros Hn. by rewrite (bool_decide_false _ Hn).
  - intros oid Ho. unfold reject_open_orders. by rewrite lookup_fmap, Ho.
  - intros l. unfold delete_links. rewrite list_elem_of_filter. tauto.
Qed.

Definition block_data : BlacklistCreate := {| bc_consumer_id := 2; bc_reason := None |}.
Definition blocked_entry : CompanyBlacklist :=
  {| blacklist_id := 1; bl_supplier_id := 1; bl_consumer_id := 2; blocked_by := Some 10; reason := None |}.
Definition blocked_db : DB :=
  after_request (block_consumer accepted_db 1 block_data owner_user) accepted_db.

Lemma block_consumer_effects_witness :
  orders accepted_db !! 1 = Some (with_status accept_order OrderStatus.ACCEPTED) ∧
  orders blocked_db !! 1 = Some (with_status (with_status accept_order OrderStatus.ACCEPTED) OrderStatus.REJECTED) ∧
  products blocked_db = products accepted_db ∧
  company_blacklist blocked_db = [blocked_entry].
Proof.
  destruct (block_consumer_effects accepted_db 1 block_data owner_user blocked_entry blocked_db)
    as (Hbl & _ & _ & Hord & _ & Hprod & _); [vm_compute; reflexivity|].
  assert (Ho : orders accepted_db !! 1 = Some (with_status accept_order OrderStatus.ACCEPTED))
    by (vm_compute; reflexivity).
  split_and!; [exact Ho| |exact Hprod|].
  - apply (Hord 1 _ Ho); [split; reflexivity|vm_compute; set_solver].
  - rewrite Hbl. reflexivity.
Defined.

(** ** Stock never goes negative *)

Definition stock_nonneg (db : DB) : Prop :=
  map_Forall (λ _ p, 0 ≤ stock_quantity p) (products db).

(** Order items hold non-negative quantities (they are only created from
    validated requests, [OrderItemCreate.quantity] being [gt=0]). *)
Definition items_nonneg (db : DB) : Prop := Forall (λ it, 0 ≤ quantity it) (order_items db).


Lemma decrement_items_nonneg ps items ps' :
  decrement_items ps items = Ok ps' →
  map_Forall (λ _ p, 0 ≤ stock_quantity p) ps → map_Forall (λ _ p, 0 ≤ stock_quantity p) ps'.
Proof.
  revert ps. induction items as [|it rest IH]; intros ps Hdec Hps; simpl in Hdec.
  - by injection Hdec as <-.
  - destruct (ps !! item_product_id it) as [p|] eqn:Hp; [|discriminate].
    destruct (Z.ltb_spec (stock_quantity p) (quantity it)); [discriminate|].
    apply (IH _ Hdec). apply map_Forall_insert_2; [simpl; lia|done].
Qed.

Lemma restore_items_nonneg ps items :
  Forall (λ it, 0 ≤ quantity it) items →
  map_Forall (λ _ p, 0 ≤ stock_quantity p) ps →
  map_Forall (λ _ p, 0 ≤ stock_quantity p) (restore_items ps items).
Proof.
  revert ps. induction items as [|it rest IH]; intros ps Hq Hps; simpl; [done|].
  apply Forall_cons in Hq as [Hq0 Hq]. apply IH; [done|].
  destruct (ps !! item_product_id it) as [p|] eqn:Hp; [|done].
  apply map_Forall_insert_2; [|done]. simpl. pose proof (Hps _ _ Hp). simpl in *. lia.
Qed.

Lemma items_of_nonneg db oid : items_nonneg db → Forall (λ it, 0 ≤ quantity it) (items_of db oid).
Proof.
  unfold items_nonneg, items_of. rewrite !Forall_forall. intros H it Hit.
  apply list_elem_of_filter in Hit. apply H. tauto.
Qed.

Lemma update_order_status_inv db oid user st o db' :
  update_order_status db oid user st = Ok (o, db') →
  stock_nonneg db → items_nonneg db → stock_nonneg db' ∧ items_nonneg db'.
Proof.
  intros H Hs Hi. unfold update_order_status in H.
  destruct (orders db !! oid) as [order|]; [|discriminate].
  destruct (check_order_permission user order st); simpl in H; [|discriminate].
  destruct (if bool_decide (st = OrderStatus.ACCEPTED ∧ status order = OrderStatus.PENDING)
            then decrement_inventory db order else mret db) as [db1|] eqn:E1;
    simpl in H; [|discriminate].
  assert (Hs1 : stock_nonneg db1 ∧ order_items db1 = order_items db).
  { destruct (bool_decide (st = OrderStatus.ACCEPTED ∧ status order = OrderStatus.PENDING)).
    - unfold decrement_inventory in E1.
      destruct (decrement_items _ _) as [ps|] eqn:Ed; simpl in E1; [|discriminate].
      injection E1 as <-. split; [|done]. eapply decrement_items_nonneg; eauto.
    - by injection E1 as <-. }
  destruct Hs1 as [Hs1 Hi1].
  assert (Hi1' : items_nonneg db1) by (unfold items_nonneg; rewrite Hi1; exact Hi).
  injection H as <- <-. unfold stock_nonneg, items_nonneg in *. simpl.
  repeat case_match; simpl; (split; [|exact Hi1']); try exact Hs1.
  all: apply restore_items_nonneg; [apply items_of_nonneg; exact Hi1'|exact Hs1].
Qed.

Lemma check_order_items_quantities db sid items data :
  check_order_items db sid items = Ok data →
  Forall (λ it, 0 < req_quantity it) items → Forall (λ d, 0 ≤ d_quantity d) data.
Proof.
  revert data. induction items as [|item rest IH]; intros data H HF; simpl in H.
  - injection H as <-. constructor.
  - destruct (products db !! req_product_id item) as [p|]; [|discriminate].
    destruct (bool_decide _); [discriminate|]. destruct (negb _); [discriminate|].
    destruct (_ <? _); [discriminate|]. destruct (_ <? _); [discriminate|].
    destruct (check_order_items db sid rest) as [rest'|] eqn:E; simpl in H; [|discriminate].
    injection H as <-. apply Forall_cons in HF as [Hq HF].
    constructor; [simpl; lia|by eapply IH].
Qed.

Lemma create_order_inv db user order_data o db' :
  create_order db user order_data = Ok (o, db') →
  Forall (λ it, 0 < req_quantity it) (od_items order_data) →
  stock_nonneg db → items_nonneg db → stock_nonneg db' ∧ items_nonneg db'.
Proof.
  unfold create_order. intros H HF Hs Hi.
  destruct (negb _); [discriminate|]. destruct (user_company_id user); [|discriminate].
  destruct (negb _); [discriminate|].
  destruct (scalar_one_or_none _) as [[l|]|]; simpl in H; try discriminate.
  destruct (check_order_items _ _ _) as [data|] eqn:E; simpl in H; [|discriminate].
  injection H as <- <-. split; [exact Hs|]. unfold items_nonneg in *. simpl.
  apply Forall_app. split; [exact Hi|]. apply Forall_map.
  exact (check_order_items_quantities _ _ _ _ E HF).
Qed.

Lemma order_create_valid_pos order_data :
  order_create_valid order_data = true → Forall (λ it, 0 < req_quantity it) (od_items order_data).
Proof.
  unfold order_create_valid. intros H. apply andb_prop in H as [_ H].
  induction (od_items order_data) as [|it rest IH]; [constructor|].
  simpl in H. apply andb_prop in H as [H1 H2].
  constructor; [by apply Z.ltb_lt|by apply IH].
Qed.

Lemma block_consumer_keeps_stock db supplier_id data blocker e db' :
  block_consumer db supplier_id data blocker = Ok (e, db') →
  products db' = products db ∧ order_items db' = order_items db.
Proof.
  intros H. unfold block_consumer in H.
  destruct (companies db !! bc_consumer_id data); [|discriminate].
  unfold scalar_one_or_none in H.
  destruct (filter _ (company_blacklist db)) as [|? [|? ?]]; simpl in H; try discriminate.
  by injection H as <- <-.
Qed.

Lemma handle_inv db req :
  stock_nonneg db → items_nonneg db → stock_nonneg (handle db req) ∧ items_nonneg (handle db req).
Proof.
  intros Hs Hi. destruct req as [user od|oid user st|user data]; simpl.
  - unfold route_create_order. destruct (order_create_valid od) eqn:Ev; simpl; [|done].
    destruct (require_roles _ user); simpl; [|done].
    destruct (create_order db user od) as [[o db']|] eqn:Ec; simpl; [|done].
    eapply create_order_inv; eauto using order_create_valid_pos.
  - destruct (update_order_status db oid user st) as [[o db']|] eqn:Eu; simpl; [|done].
    eapply update_order_status_inv; eauto.
  - unfold route_block_consumer. destruct (bool_decide _); simpl; [done|].
    destruct (user_company_id user); simpl; [|done].
    destruct (block_consumer _ _ _ _) as [[e db']|] eqn:Eb; simpl; [|done].
    apply block_consumer_keeps_stock in Eb as [Hp Hit].
    unfold stock_nonneg, items_nonneg. rewrite Hp, Hit. done.
Qed.

(** C8. From a database whose products have non-negative stock (and whose
    order items have non-negative quantities, as every item the API
    creates does), any sequence of order creations, status updates
    (acceptance, cancellation, rejection with restore, ...) and blocks
    leaves every product's stock non-negative. *)
Theorem stock_never_negative (db : DB) (reqs : list Request) :
  stock_nonneg db → items_nonneg db → stock_nonneg (run_requests db reqs).
Proof.
  intros Hs Hi. unfold run_requests. revert db Hs Hi.
  induction reqs as [|r rest IH]; intros db Hs Hi; simpl; [done|].
  destruct (handle_inv db r Hs Hi). by apply IH.
Qed.

Lemma stock_never_negative_witness :
  stock_nonneg (run_requests (fixture_db [approved_link])
    [PostOrder consumer_user order_5p_2q; PutOrderStatus 1 owner_user OrderStatus.ACCEPTED;
     PutOrderStatus 1 consumer_user OrderStatus.CANCELLED]).
Proof.
  apply stock_never_negative.
  - unfold stock_nonneg. apply (bool_decide_unpack (map_Forall _ _)). vm_compute. exact I.
  - constructor.
Defined.

(** ** Link requests *)

Lemma company_has_type_Some db k t :
  company_has_type db (Some k) t = true ↔ ∃ c, companies db !! k = Some c ∧ company_type c = t.
Proof.
  unfold company_has_type, get_company. simpl.
  destruct (companies db !! k) as [c|]; [rewrite bool_decide_eq_true|]; naive_solver.
Qed.

(** C9. [create_link_request]'s checks, in order: 403 when the requesting
    company is not a CONSUMER company; 404 when the target company does
    not exist; 400 "not a Supplier" when it is not a SUPPLIER company; 400
    "Link request already exists" (the Conflict failure) when a link row
    of the pair exists in any status (the pair having at most one row, as
    the registry keeps it); otherwise exactly one new PENDING link for the
    pair is appended and nothing else changes but the id counter. *)
Theorem create_link_request_contract (db : DB) (consumer : User) (link_data : LinkCreate) :
  (company_has_type db (user_company_id consumer) CompanyType.CONSUMER = false →
   create_link_request db consumer link_data = raise 403 only_consumers_request_links) ∧
  (company_has_type db (user_company_id consumer) CompanyType.CONSUMER = true →
   companies db !! lc_supplier_id link_data = None →
   create_link_request db consumer link_data = raise 404 supplier_company_not_found) ∧
  (company_has_type db (user_company_id consumer) CompanyType.CONSUMER = true →
   ∀ c, companies db !! lc_supplier_id link_data = Some c → company_type c ≠ CompanyType.SUPPLIER →
   create_link_request db consumer link_data = raise 400 target_not_supplier) ∧
  (∀ cid, user_company_id consumer = Some cid →
   company_has_type db (Some cid) CompanyType.CONSUMER = true →
   company_has_type db (Some (lc_supplier_id link_data)) CompanyType.SUPPLIER = true →
   ∀ l, l ∈ links db → link_supplier_id l = lc_supplier_id link_data → link_consumer_id l = cid →
   (length (link_rows_for db (lc_supplier_id link_data) cid) ≤ 1)%nat →
   create_link_request db consumer link_data = raise 400 link_request_exists) ∧
  (∀ cid, user_company_id consumer = Some cid →
   company_has_type db (Some cid) CompanyType.CONSUMER = true →
   company_has_type db (Some (lc_supplier_id link_data)) CompanyType.SUPPLIER = true →
   link_rows_for db (lc_supplier_id link_data) cid = [] →
   let new_link := {| link_id := next_link_id db; link_supplier_id := lc_supplier_id link_data;
                      link_consumer_id := cid; link_status := LinkStatus.PENDING |} in
   ∃ db', create_link_request db consumer link_data = Ok (new_link, db') ∧
          links db' = links db ++ [new_link] ∧
          companies db' = companies db ∧ products db' = products db ∧ orders db' = orders db ∧
          order_items db' = order_items db ∧ company_blacklist db' = company_blacklist db).
Proof.
  unfold create_link_request. split_and!.
  - intros H. by rewrite H.
  - intros H Hn. rewrite H. simpl.
    destruct (user_company_id consumer); [|done]. by rewrite Hn.
  - intros H c Hc Ht. rewrite H. simpl.
    destruct (user_company_id consumer); [|done]. rewrite Hc. by rewrite bool_decide_true.
  - intros cid Hcid Hcons Hsup l Hl Hls Hlc Hlen. rewrite Hcid, Hcons. simpl.
    apply company_has_type_Some in Hsup as (sc & Hsc & Hst). rewrite Hsc.
    rewrite bool_decide_false by (intros Hn; by apply Hn).
    assert (Hin : l ∈ link_rows_for db (lc_supplier_id link_data) cid)
      by (apply list_elem_of_filter; done).
    destruct (link_rows_for db (lc_supplier_id link_data) cid) as [|l1 [|l2 ls]];
      simpl in Hlen; [set_solver|reflexivity|lia].
  - intros cid Hcid Hcons Hsup Hnone. rewrite Hcid, Hcons. simpl.
    apply company_has_type_Some in Hsup as (sc & Hsc & Hst). rewrite Hsc.
    rewrite bool_decide_false by (intros Hn; by apply Hn).
    rewrite Hnone. simpl. eexists. split; [reflexivity|]. simpl. done.
Qed.

Lemma create_link_request_contract_witness :
  ∃ db', create_link_request (fixture_db []) consumer_user {| lc_supplier_id := 1 |}
           = Ok ({| link_id := 1; link_supplier_id := 1; link_consumer_id := 2;
                    link_status := LinkStatus.PENDING |}, db') ∧
         links db' = [] ++ [{| link_id := 1; link_supplier_id := 1; link_consumer_id := 2;
                               link_status := LinkStatus.PENDING |}].
Proof.
  destruct (create_link_request_contract (fixture_db []) consumer_user {| lc_supplier_id := 1 |})
    as (_ & _ & _ & _ & Hok).
  destruct (Hok 2) as (db' & H1 & H2 & _); [reflexivity|vm_compute; reflexivity|vm_compute; reflexivity
                                         |vm_compute; reflexivity|].
  exists db'. split; [exact H1|exact H2].
Defined.

(** ** Restoring stock skips deleted products *)

(** C10. Cancelling (by the consumer or a supplier-side user) or
    rejecting (by a supplier-side user) an ACCEPTED order of one's own
    company always succeeds: every product that still exists gets its
    items' quantity back, and a product that no longer exists is skipped
    without error. *)
Theorem restore_skips_missing_products (db : DB) (oid : Z) (order : Order) (user : User)
    (st : OrderStatus.t) :
  orders db !! oid = Some order →
  status order = OrderStatus.ACCEPTED →
  (role user = UserRole.CONSUMER ∧ user_company_id user = Some (consumer_id order) ∧
   st = OrderStatus.CANCELLED ∨
   role user ≠ UserRole.CONSUMER ∧ user_company_id user = Some (order_supplier_id order) ∧
   (st = OrderStatus.CANCELLED ∨ st = OrderStatus.REJECTED)) →
  ∃ db', update_order_status db oid user st = Ok (with_status order st, db') ∧
         orders db' !! oid = Some (with_status order st) ∧
         ∀ k, products db' !! k
              = shift_stock (λ k, qty_for k (items_of db (order_id order))) (products db) k.
Proof.
  intros Ho Hst Hactor. unfold update_order_status. rewrite Ho.
  assert (Hperm : check_order_permission user order st = Ok ()).
  { destruct Hactor as [(Hr & Hc & ->) | (Hr & Hc & _)].
    - unfold check_order_permission. rewrite Hr, Hst.
      rewrite !bool_decide_false by (rewrite ?Hc; set_solver). reflexivity.
    - by apply supplier_permission_ok. }
  rewrite Hperm. simpl.
  assert (Hst' : st ∈ [OrderStatus.CANCELLED; OrderStatus.REJECTED]) by
    (destruct Hactor as [(_ & _ & ->) | (_ & _ & [-> | ->])]; set_solver).
  rewrite (bool_decide_false (st = OrderStatus.ACCEPTED ∧ status order = OrderStatus.PENDING))
    by (rewrite Hst; intros [_ ?]; discriminate).
  simpl. rewrite (bool_decide_true _ Hst'), (bool_decide_true _ Hst).
  eexists. split; [reflexivity|]. split; [apply lookup_insert_eq|].
  intros k. simpl. apply restore_items_lookup.
Qed.

(** Order 1 of [accepted_db] after product 101 was deleted. *)
Definition deleted_product_db : DB := set_products accepted_db (delete 101 (products accepted_db)).

Lemma restore_skips_missing_products_witness :
  ∃ db', update_order_status deleted_product_db 1 consumer_user OrderStatus.CANCELLED
           = Ok (with_status (with_status accept_order OrderStatus.ACCEPTED) OrderStatus.CANCELLED, db') ∧
         stock_of db' 100 = Some 10 ∧ stock_of db' 101 = None.
Proof.
  destruct (restore_skips_missing_products deleted_product_db 1
              (with_status accept_order OrderStatus.ACCEPTED) consumer_user OrderStatus.CANCELLED)
    as (db' & H1 & _ & H3);
    [vm_compute; reflexivity|reflexivity|left; split_and!; reflexivity|].
  exists db'. split; [exact H1|]. unfold stock_of. rewrite !H3. split; vm_compute; reflexivity.
Defined.

(** * Further properties of the services *)

(** ** LinkService.update_link_status *)

(** [set_link_status] rewrites exactly the row that [db.get] returns: the
    first one with the primary key. *)
Lemma set_link_status_split lid st ls l :
  List.find (λ l, bool_decide (link_id l = lid)) ls = Some l →
  ∃ pre post, ls = pre ++ l :: post ∧ Forall (λ l', link_id l' ≠ lid) pre ∧
    link_id l = lid ∧ set_link_status lid st ls = pre ++ with_link_status l st :: post.
Proof.
  induction ls as [|x ls IH]; simpl; [discriminate|].
  case_bool_decide as Hx.
  - intros [= <-]. by exists [], ls.
  - intros Hf. destruct (IH Hf) as (pre & post & -> & Hpre & Hid & ->).
    exists (x :: pre), post. split_and!; auto.
Qed.

Lemma find_skip_prefix lid pre rest :
  Forall (λ l', link_id l' ≠ lid) pre →
  List.find (λ l, bool_decide (link_id l = lid)) (pre ++ rest)
  = List.find (λ l, bool_decide (link_id l = lid)) rest.
Proof.
  induction 1 as [|x pre Hx _ IH]; [done|]. simpl. by rewrite bool_decide_false.
Qed.

Lemma find_swap_middle (f : Link → bool) pre x y post :
  f x = false → f y = false →
  List.find f (pre ++ x :: post) = List.find f (pre ++ y :: post).
Proof.
  intros Hx Hy. induction pre as [|z pre IH]; simpl; [by rewrite Hx, Hy|].
  by rewrite IH.
Qed.

(** X1: a link status update goes through exactly when the link exists, the
    actor belongs to its supplier company and has a supplier role; any
    status may be written, whatever the current one. *)
Theorem update_link_status_allowed (db : DB) (lid : Z) (user : User) (new_status : LinkStatus.t) :
  (∃ r, update_link_status db lid user new_status = Ok r) ↔
  ∃ link, get_link db lid = Some link ∧
          user_company_id user = Some (link_supplier_id link) ∧ role user ≠ UserRole.CONSUMER.
Proof.
  unfold update_link_status. destruct (get_link db lid) as [link|]; simpl.
  - case_bool_decide as Hc; simpl.
    + split; [intros [? ?]; discriminate|]. intros (? & [= <-] & ? & _). done.
    + case_bool_decide as Hr; simpl.
      * split; [intros [? ?]; discriminate|].
        intros (? & [= <-] & _ & Hn). exfalso. apply Hr.
        destruct (role user); [congruence|set_solver..].
      * split; [|eauto]. intros _. exists link. split_and!; [done|exact Hc|].
        intros Hcons. rewrite Hcons in Hr. set_solver.
  - split; [intros [? ?]; discriminate|]. intros (? & ? & _). discriminate.
Qed.

Lemma update_link_status_Ok db lid user new_status l' db' :
  update_link_status db lid user new_status = Ok (l', db') →
  ∃ link, get_link db lid = Some link ∧ l' = with_link_status link new_status ∧
          db' = set_links db (set_link_status lid new_status (links db)).
Proof.
  unfold update_link_status. destruct (get_link db lid) as [link|]; [|discriminate].
  case_bool_decide; [discriminate|]. case_bool_decide; [discriminate|].
  intros [= <- <-]. eauto.
Qed.

(** X2: a successful update rewrites the status of that one link row and
    nothing else: the row keeps its id and its pair, every other primary
    key reads the same row as before, no row is added or removed, and the
    other tables are untouched. *)
Theorem update_link_status_effect (db : DB) (lid : Z) (user : User) (new_status : LinkStatus.t)
    (l' : Link) (db' : DB) :
  update_link_status db lid user new_status = Ok (l', db') →
  ∃ link, get_link db lid = Some link ∧
    l' = with_link_status link new_status ∧
    get_link db' lid = Some l' ∧
    (∀ lid', lid' ≠ lid → get_link db' lid' = get_link db lid') ∧
    length (links db') = length (links db) ∧
    products db' = products db ∧ orders db' = orders db ∧
    company_blacklist db' = company_blacklist db.
Proof.
  intros H. destruct (update_link_status_Ok _ _ _ _ _ _ H) as (link & Hget & -> & ->).
  exists link. unfold get_link in *; simpl.
  destruct (set_link_status_split lid new_status _ _ Hget) as (pre & post & Hls & Hpre & Hid & ->).
  split_and!; try done.
  - rewrite find_skip_prefix by done. simpl. by rewrite bool_decide_true.
  - intros lid' Hne. rewrite Hls.
    apply find_swap_middle; apply bool_decide_false; simpl; congruence.
  - rewrite Hls, !length_app. done.
Qed.

(** A supplier 1 / consumer 2 link awaiting approval. *)
Definition pending_link : Link := {| link_id := 1; link_supplier_id := 1; link_consumer_id := 2;
  link_status := LinkStatus.PENDING |}.

Lemma update_link_status_effect_witness :
  ∃ db', update_link_status (fixture_db [pending_link]) 1 owner_user LinkStatus.APPROVED
           = Ok (approved_link, db') ∧
         get_link db' 1 = Some approved_link.
Proof.
  eexists. split; [reflexivity|].
  destruct (update_link_status_effect (fixture_db [pending_link]) 1 owner_user LinkStatus.APPROVED
              approved_link (set_links (fixture_db [pending_link]) [approved_link]))
    as (link & _ & _ & H & _); [reflexivity|].
  exact H.
Defined.

(** X3: when the link is the only row of its (supplier, consumer) pair, the
    update decides the consumer's access: afterwards the supplier is among
    the consumer's approved suppliers (catalog, product pages) exactly when
    the new status is APPROVED, whatever the status was before. *)
Theorem update_link_status_sole_link_access (db : DB) (lid : Z) (user : User)
    (new_status : LinkStatus.t) (link l' : Link) (db' : DB) :
  get_link db lid = Some link →
  link_rows_for db (link_supplier_id link) (link_consumer_id link) = [link] →
  update_link_status db lid user new_status = Ok (l', db') →
  link_supplier_id link ∈ get_approved_supplier_ids db' (Some (link_consumer_id link))
  ↔ new_status = LinkStatus.APPROVED.
Proof.
  intros Hget Hrows H.
  destruct (update_link_status_Ok _ _ _ _ _ _ H) as (link' & Hget' & -> & ->).
  rewrite Hget in Hget'. injection Hget' as <-.
  unfold get_link in Hget.
  destruct (set_link_status_split lid new_status _ _ Hget) as (pre & post & Hls & Hpre & Hid & Hset).
  unfold link_rows_for in Hrows. rewrite Hls, filter_app, filter_cons_True in Hrows by done.
  assert (Hpre0 : filter (λ l, link_supplier_id l = link_supplier_id link ∧
                               link_consumer_id l = link_consumer_id link) pre = [] ∧
                  filter (λ l, link_supplier_id l = link_supplier_id link ∧
                               link_consumer_id l = link_consumer_id link) post = []).
  { apply (f_equal length) in Hrows. rewrite length_app in Hrows. simpl in Hrows.
    split; apply length_zero_iff_nil; lia. }
  destruct Hpre0 as [Hpre0 Hpost0].
  rewrite approved_supplier_ids_spec. simpl. rewrite Hset. split.
  - intros (l & Hin & [= Hc] & Hst & Hs).
    apply elem_of_app in Hin as [Hin | Hin].
    + exfalso. assert (Hf : l ∈ filter (λ l, link_supplier_id l = link_supplier_id link ∧
                               link_consumer_id l = link_consumer_id link) pre)
        by (apply list_elem_of_filter; auto).
      rewrite Hpre0 in Hf. set_solver.
    + apply elem_of_cons in Hin as [-> | Hin]; [done|].
      exfalso. assert (Hf : l ∈ filter (λ l, link_supplier_id l = link_supplier_id link ∧
                               link_consumer_id l = link_consumer_id link) post)
        by (apply list_elem_of_filter; auto).
      rewrite Hpost0 in Hf. set_solver.
  - intros ->. exists (with_link_status link LinkStatus.APPROVED). simpl.
    split_and!; try done. set_solver.
Qed.

Lemma update_link_status_sole_link_access_witness :
  get_link (fixture_db [pending_link]) 1 = Some pending_link ∧
  link_rows_for (fixture_db [pending_link]) 1 2 = [pending_link] ∧
  update_link_status (fixture_db [pending_link]) 1 owner_user LinkStatus.APPROVED
    = Ok (approved_link, set_links (fixture_db [pending_link]) [approved_link]) ∧
  1 ∈ get_approved_supplier_ids (set_links (fixture_db [pending_link]) [approved_link]) (Some 2).
Proof.
  split_and!; [reflexivity|reflexivity|reflexivity|].
  apply (update_link_status_sole_link_access (fixture_db [pending_link]) 1 owner_user
           LinkStatus.APPROVED pending_link approved_link); reflexivity.
Defined.

(** ** ConnectionManagementService: block, unblock, remove *)

Lemma filter_all {A} (P : A → Prop) `{∀ x, Decision (P x)} (l : list A) :
  (∀ x, x ∈ l → P x) → filter P l = l.
Proof.
  induction l as [|x l IH]; intros Hall; [done|].
  rewrite filter_cons_True by (apply Hall; set_solver). f_equal. apply IH. set_solver.
Qed.

Lemma block_consumer_Ok db sid data blocker entry db' :
  block_consumer db sid data blocker = Ok (entry, db') →
  is_Some (companies db !! bc_consumer_id data) ∧
  blacklist_rows db sid (bc_consumer_id data) = [] ∧
  blacklist_id entry = next_blacklist_id db ∧ bl_supplier_id entry = sid ∧
  bl_consumer_id entry = bc_consumer_id data ∧
  companies db' = companies db ∧ products db' = products db ∧
  orders db' = reject_open_orders sid (bc_consumer_id data) (orders db) ∧
  links db' = delete_links sid (bc_consumer_id data) (links db) ∧
  company_blacklist db' = company_blacklist db ++ [entry] ∧
  next_link_id db' = next_link_id db.
Proof.
  unfold block_consumer. cbv zeta.
  destruct (companies db !! bc_consumer_id data) eqn:Hc; [|discriminate].
  fold (blacklist_rows db sid (bc_consumer_id data)). unfold scalar_one_or_none.
  destruct (blacklist_rows db sid (bc_consumer_id data)) as [|? [|? ?]]; try discriminate.
  simpl. intros [= <- <-]. simpl. split_and!; eauto.
Qed.

Lemma unblock_consumer_Ok db sid cid u db' :
  unblock_consumer db sid cid = Ok (u, db') →
  ∃ e, blacklist_rows db sid cid = [e] ∧
       db' = set_blacklist db (filter (λ e', blacklist_id e' ≠ blacklist_id e) (company_blacklist db)).
Proof.
  unfold unblock_consumer, scalar_one_or_none.
  destruct (blacklist_rows db sid cid) as [|e [|? ?]]; try discriminate.
  intros [= _ <-]. eauto.
Qed.

(** X4: unblocking removes the pair's blacklist entry, so a second unblock
    of the same pair fails with 404 and the pair no longer reads as
    blacklisted. *)
Theorem unblock_consumer_twice (db : DB) (supplier_id consumer_cid : Z) (u : unit) (db' : DB) :
  unblock_consumer db supplier_id consumer_cid = Ok (u, db') →
  blacklist_rows db' supplier_id consumer_cid = [] ∧
  unblock_consumer db' supplier_id consumer_cid = raise 404 consumer_not_blacklisted ∧
  is_consumer_blacklisted db' supplier_id consumer_cid = Ok false.
Proof.
  intros H. destruct (unblock_consumer_Ok _ _ _ _ _ H) as (e & He & ->).
  assert (Hnil : blacklist_rows (set_blacklist db (filter (λ e', blacklist_id e' ≠ blacklist_id e)
                                                         (company_blacklist db)))
                                supplier_id consumer_cid = []).
  { apply filter_none. intros x Hx Hp. simpl in Hx.
    apply list_elem_of_filter in Hx as [Hid Hx].
    assert (Hin : x ∈ blacklist_rows db supplier_id consumer_cid)
      by (apply list_elem_of_filter; auto).
    rewrite He in Hin. apply list_elem_of_singleton in Hin. by subst. }
  unfold unblock_consumer, is_consumer_blacklisted. rewrite Hnil. done.
Qed.

Definition blocked_entry_db : DB :=
  set_blacklist (fixture_db [approved_link]) [blocked_entry].

Lemma unblock_consumer_twice_witness :
  unblock_consumer blocked_entry_db 1 2 = Ok ((), fixture_db [approved_link]) ∧
  unblock_consumer (fixture_db [approved_link]) 1 2 = raise 404 consumer_not_blacklisted.
Proof.
  split; [reflexivity|].
  apply (unblock_consumer_twice blocked_entry_db 1 2 () (fixture_db [approved_link])).
  reflexivity.
Defined.

(** X5: unblocking right after a block gives back the blacklist as it was,
    but not the deleted links nor the rejected orders: the consumer has to
    request a new link. *)
Theorem block_then_unblock (db : DB) (supplier_id : Z) (data : BlacklistCreate) (blocker : User)
    (entry : CompanyBlacklist) (db1 : DB) :
  block_consumer db supplier_id data blocker = Ok (entry, db1) →
  (∀ e, e ∈ company_blacklist db → blacklist_id e ≠ next_blacklist_id db) →
  is_consumer_blacklisted db1 supplier_id (bc_consumer_id data) = Ok true ∧
  ∃ db2, unblock_consumer db1 supplier_id (bc_consumer_id data) = Ok ((), db2) ∧
    company_blacklist db2 = company_blacklist db ∧
    links db2 = delete_links supplier_id (bc_consumer_id data) (links db) ∧
    orders db2 = reject_open_orders supplier_id (bc_consumer_id data) (orders db).
Proof.
  intros H Hfresh.
  destruct (block_consumer_Ok _ _ _ _ _ _ H)
    as (_ & Hrows & Hid & Hs & Hc & _ & _ & Hord & Hlinks & Hbl & _).
  assert (Hrows1 : blacklist_rows db1 supplier_id (bc_consumer_id data) = [entry]).
  { unfold blacklist_rows. rewrite Hbl, filter_app.
    fold (blacklist_rows db supplier_id (bc_consumer_id data)). rewrite Hrows.
    simpl. rewrite filter_cons_True by tauto. done. }
  unfold is_consumer_blacklisted, unblock_consumer. rewrite Hrows1. simpl.
  split; [done|]. eexists. split; [reflexivity|]. simpl.
  rewrite Hbl, filter_app, filter_cons_False by tauto. simpl. rewrite app_nil_r.
  split_and!; [|done|done]. apply filter_all. intros e He. rewrite Hid. by apply Hfresh.
Qed.

Definition unblocked_db : DB :=
  after_request (unblock_consumer blocked_db 1 2) blocked_db.

Lemma block_then_unblock_witness :
  block_consumer accepted_db 1 block_data owner_user = Ok (blocked_entry, blocked_db) ∧
  company_blacklist accepted_db = [] ∧
  is_consumer_blacklisted blocked_db 1 2 = Ok true ∧
  company_blacklist unblocked_db = [] ∧ links unblocked_db = [].
Proof.
  assert (Hb : block_consumer accepted_db 1 block_data owner_user = Ok (blocked_entry, blocked_db))
    by (vm_compute; reflexivity).
  destruct (block_then_unblock accepted_db 1 block_data owner_user blocked_entry blocked_db Hb)
    as (H1 & db2 & H2 & H3 & H4 & _).
  { intros e He. exfalso. vm_compute in He. set_solver. }
  unfold unblocked_db. simpl in H2. rewrite H2. simpl.
  split_and!; [exact Hb|vm_compute; reflexivity|exact H1|rewrite H3; vm_compute; reflexivity|].
  rewrite H4. vm_compute. reflexivity.
Defined.

Lemma company_has_type_same db db' k t :
  companies db' = companies db → company_has_type db' k t = company_has_type db k t.
Proof. intros Hc. unfold company_has_type, get_company. by rewrite Hc. Qed.

(** A consumer company asking a supplier company with no link row for the
    pair gets a new PENDING link. *)
Lemma create_link_request_fresh db user cid sid :
  user_company_id user = Some cid →
  company_has_type db (Some cid) CompanyType.CONSUMER = true →
  company_has_type db (Some sid) CompanyType.SUPPLIER = true →
  link_rows_for db sid cid = [] →
  ∃ db', create_link_request db user {| lc_supplier_id := sid |}
           = Ok ({| link_id := next_link_id db; link_supplier_id := sid; link_consumer_id := cid;
                    link_status := LinkStatus.PENDING |}, db') ∧
         links db' = links db ++ [{| link_id := next_link_id db; link_supplier_id := sid;
                                     link_consumer_id := cid; link_status := LinkStatus.PENDING |}] ∧
         company_blacklist db' = company_blacklist db ∧ orders db' = orders db.
Proof.
  intros Hu Hcons Hsup Hrows. unfold create_link_request. rewrite Hu, Hcons. simpl.
  apply company_has_type_Some in Hsup as (c & Hc & Ht). rewrite Hc.
  rewrite bool_decide_false by (rewrite Ht; auto). rewrite Hrows. simpl.
  eexists. split; [reflexivity|]. done.
Qed.

(** The product rows the catalog returns: visible products of approved
    suppliers, and of the requested supplier when one (non-zero) is given. *)
Lemma catalog_rows_sound db user fs ps p :
  get_catalog_for_consumer db user fs = Ok ps → p ∈ ps →
  product_supplier_id p ∈ get_approved_supplier_ids db (user_company_id user) ∧
  product_is_active p = true ∧ 0 < stock_quantity p ∧ (∃ k, products db !! k = Some p) ∧
  (∀ sid, fs = Some sid → sid ≠ 0 → product_supplier_id p = sid).
Proof.
  unfold get_catalog_for_consumer. cbv zeta.
  destruct (get_approved_supplier_ids db (user_company_id user)) as [|a rest] eqn:Ha.
  { intros [= <-]. set_solver. }
  assert (Hq : ∀ q, p ∈ filter (λ p, product_supplier_id p ∈ a :: rest ∧ product_is_active p = true
                                      ∧ 0 < stock_quantity p) (product_rows db) →
                    (∀ sid, fs = Some sid → sid ≠ 0 → product_supplier_id p = sid) →
                    q = () →
                    product_supplier_id p ∈ a :: rest ∧ product_is_active p = true ∧
                    0 < stock_quantity p ∧ (∃ k, products db !! k = Some p) ∧
                    (∀ sid, fs = Some sid → sid ≠ 0 → product_supplier_id p = sid)).
  { intros _ Hp Hf _. apply list_elem_of_filter in Hp as [(H1 & H2 & H3) Hp].
    apply product_rows_spec in Hp. auto. }
  destruct fs as [sid|].
  - case_bool_decide as Hz.
    + case_bool_decide; [discriminate|]. intros [= <-] Hp.
      apply list_elem_of_filter in Hp as [Hs Hp]. apply (Hq ()); [done| |done].
      intros ? [= <-] _. done.
    + intros [= <-] Hp. apply (Hq ()); [done| |done]. intros ? [= <-] ?. by destruct Hz.
  - intros [= <-] Hp. apply (Hq ()); [done| |done]. intros ? [=].
Qed.

Lemma block_consumer_no_pair_link db sid data blocker entry db' l :
  block_consumer db sid data blocker = Ok (entry, db') →
  l ∈ links db' → ¬ (link_supplier_id l = sid ∧ link_consumer_id l = bc_consumer_id data).
Proof.
  intros H Hl. destruct (block_consumer_Ok _ _ _ _ _ _ H) as (_ & _ & _ & _ & _ & _ & _ & _ & Hlinks & _).
  rewrite Hlinks in Hl. unfold delete_links in Hl. apply list_elem_of_filter in Hl. tauto.
Qed.

(** X6: after a supplier blocks a consumer company, that company's users
    can no longer order from the supplier, open its product pages, or see
    its products in the catalog, until a new link is approved. *)
Theorem block_consumer_revokes_access (db : DB) (supplier_id : Z) (data : BlacklistCreate)
    (blocker : User) (entry : CompanyBlacklist) (db' : DB) (user : User) :
  block_consumer db supplier_id data blocker = Ok (entry, db') →
  user_company_id user = Some (bc_consumer_id data) →
  (supplier_id ∉ get_approved_supplier_ids db' (user_company_id user)) ∧
  (∀ order_data r, od_supplier_id order_data = supplier_id → create_order db' user order_data ≠ Ok r) ∧
  (∀ pid p, role user = UserRole.CONSUMER → products db' !! pid = Some p →
     product_supplier_id p = supplier_id →
     get_product_by_id db' pid user = raise 403 access_denied_no_link) ∧
  (∀ fs ps, get_catalog_for_consumer db' user fs = Ok ps →
     ∀ p, p ∈ ps → product_supplier_id p ≠ supplier_id).
Proof.
  intros H Hu.
  assert (Hnot : supplier_id ∉ get_approved_supplier_ids db' (user_company_id user)).
  { rewrite approved_supplier_ids_spec. intros (l & Hl & Hc & _ & Hs).
    apply (block_consumer_no_pair_link _ _ _ _ _ _ _ H Hl). rewrite Hu in Hc. by injection Hc. }
  split_and!; [exact Hnot| | |].
  - intros order_data r Hod.
    assert (Hrows : approved_link_rows db' (bc_consumer_id data) supplier_id = []).
    { apply filter_none. intros l Hl (H1 & H2 & _).
      by apply (block_consumer_no_pair_link _ _ _ _ _ _ _ H Hl). }
    unfold create_order. rewrite Hu, Hod, Hrows.
    destruct (negb (company_has_type db' (Some (bc_consumer_id data)) CompanyType.CONSUMER));
      [discriminate|].
    destruct (negb (company_has_type db' (Some supplier_id) CompanyType.SUPPLIER)); discriminate.
  - intros pid p Hr Hp Hs. unfold get_product_by_id. rewrite Hp, Hr, Hs.
    by rewrite bool_decide_true.
  - intros fs ps Hc p Hp Hs. apply Hnot. rewrite <- Hs.
    by apply (catalog_rows_sound _ _ _ _ _ Hc Hp).
Qed.

Lemma block_consumer_revokes_access_witness :
  block_consumer accepted_db 1 block_data owner_user = Ok (blocked_entry, blocked_db) ∧
  get_product_by_id accepted_db 100 consumer_user = Ok (with_stock prod_p 5) ∧
  get_product_by_id blocked_db 100 consumer_user = raise 403 access_denied_no_link.
Proof.
  assert (Hb : block_consumer accepted_db 1 block_data owner_user = Ok (blocked_entry, blocked_db))
    by (vm_compute; reflexivity).
  split_and!; [exact Hb|vm_compute; reflexivity|].
  destruct (block_consumer_revokes_access accepted_db 1 block_data owner_user blocked_entry blocked_db
              consumer_user Hb eq_refl) as (_ & _ & H3 & _).
  apply (H3 100 (with_stock prod_p 5)); [reflexivity|vm_compute; reflexivity|reflexivity].
Defined.

(** X7: the blacklist is not consulted when a link is requested: right after
    being blocked, the consumer company can request a new link to the same
    supplier, which is created PENDING while the blacklist entry stays. *)
Theorem blocked_consumer_can_request_link (db : DB) (supplier_id : Z) (data : BlacklistCreate)
    (blocker : User) (entry : CompanyBlacklist) (db' : DB) (user : User) :
  block_consumer db supplier_id data blocker = Ok (entry, db') →
  user_company_id user = Some (bc_consumer_id data) →
  company_has_type db (Some (bc_consumer_id data)) CompanyType.CONSUMER = true →
  company_has_type db (Some supplier_id) CompanyType.SUPPLIER = true →
  ∃ db'', create_link_request db' user {| lc_supplier_id := supplier_id |}
            = Ok ({| link_id := next_link_id db; link_supplier_id := supplier_id;
                     link_consumer_id := bc_consumer_id data; link_status := LinkStatus.PENDING |}, db'') ∧
          company_blacklist db'' = company_blacklist db ++ [entry].
Proof.
  intros H Hu Hcons Hsup.
  destruct (block_consumer_Ok _ _ _ _ _ _ H) as (_ & _ & _ & _ & _ & Hcomp & _ & _ & _ & Hbl & Hnext).
  destruct (create_link_request_fresh db' user (bc_consumer_id data) supplier_id Hu)
    as (db'' & Hreq & _ & Hbl' & _).
  - by rewrite (company_has_type_same _ _ _ _ Hcomp).
  - by rewrite (company_has_type_same _ _ _ _ Hcomp).
  - apply filter_none. intros l Hl Hp. by apply (block_consumer_no_pair_link _ _ _ _ _ _ _ H Hl).
  - exists db''. rewrite Hnext in Hreq. split; [exact Hreq|]. by rewrite Hbl', Hbl.
Qed.

Lemma blocked_consumer_can_request_link_witness :
  ∃ db'', create_link_request blocked_db consumer_user {| lc_supplier_id := 1 |}
            = Ok ({| link_id := next_link_id accepted_db; link_supplier_id := 1;
                     link_consumer_id := 2; link_status := LinkStatus.PENDING |}, db'') ∧
          company_blacklist db'' = company_blacklist accepted_db ++ [blocked_entry].
Proof.
  apply (blocked_consumer_can_request_link accepted_db 1 block_data owner_user blocked_entry blocked_db
           consumer_user); [vm_compute; reflexivity|reflexivity|reflexivity|reflexivity].
Defined.

Lemma NoDup_fmap_same {A B} (f : A → B) (l : list A) x y :
  NoDup (f <$> l) → x ∈ l → y ∈ l → f x = f y → x = y.
Proof.
  induction l as [|a l IH]; intros Hnd Hx Hy Hf; [set_solver|].
  rewrite fmap_cons, NoDup_cons in Hnd. destruct Hnd as [Ha Hnd].
  apply elem_of_cons in Hx as [-> | Hx], Hy as [-> | Hy]; [done| | |by apply IH].
  - exfalso. apply Ha. rewrite Hf. by apply list_elem_of_fmap_2.
  - exfalso. apply Ha. rewrite <- Hf. by apply list_elem_of_fmap_2.
Qed.

Lemma remove_connection_Ok db sid cid user u db' :
  remove_connection db sid cid user = Ok (u, db') →
  role user ∈ [UserRole.SUPPLIER_OWNER; UserRole.SUPPLIER_MANAGER] ∧
  user_company_id user = Some sid ∧
  ∃ l, link_rows_for db sid cid = [l] ∧
       db' = set_links db (filter (λ l', link_id l' ≠ link_id l) (links db)).
Proof.
  unfold remove_connection. case_bool_decide as Hr; [discriminate|].
  case_bool_decide as Hc; [discriminate|]. unfold scalar_one_or_none.
  destruct (link_rows_for db sid cid) as [|l [|? ?]]; try discriminate.
  intros [= _ <-]. split; [|split; [|eauto]];
    match goal with |- ?P => destruct (decide P); tauto end.
Qed.

(** X8: removing a connection deletes the pair's link row (no link of the
    pair is left) and, primary keys being unique, keeps every link of the
    other pairs; orders, products and the blacklist are untouched. *)
Theorem remove_connection_effect (db : DB) (supplier_id consumer_cid : Z) (user : User)
    (u : unit) (db' : DB) :
  remove_connection db supplier_id consumer_cid user = Ok (u, db') →
  link_rows_for db' supplier_id consumer_cid = [] ∧
  (NoDup (link_id <$> links db) →
   ∀ l, l ∈ links db → ¬ (link_supplier_id l = supplier_id ∧ link_consumer_id l = consumer_cid) →
   l ∈ links db') ∧
  company_blacklist db' = company_blacklist db ∧ orders db' = orders db ∧
  products db' = products db.
Proof.
  intros H. destruct (remove_connection_Ok _ _ _ _ _ _ H) as (_ & _ & l & Hrows & ->).
  assert (Hl : l ∈ link_rows_for db supplier_id consumer_cid) by (rewrite Hrows; set_solver).
  apply list_elem_of_filter in Hl as [Hpair Hl].
  split_and!; try done.
  - apply filter_none. intros x Hx Hp. simpl in Hx. apply list_elem_of_filter in Hx as [Hid Hx].
    assert (Hin : x ∈ link_rows_for db supplier_id consumer_cid)
      by (apply list_elem_of_filter; auto).
    rewrite Hrows in Hin. apply list_elem_of_singleton in Hin. by subst.
  - intros Hnd x Hx Hnp. simpl. apply list_elem_of_filter. split; [|done].
    intros Hid. apply Hnp. by rewrite (NoDup_fmap_same _ _ _ _ Hnd Hx Hl Hid).
Qed.

Lemma remove_connection_effect_witness :
  remove_connection (fixture_db [approved_link]) 1 2 owner_user = Ok ((), fixture_db []) ∧
  link_rows_for (fixture_db []) 1 2 = [].
Proof.
  split; [reflexivity|].
  apply (remove_connection_effect (fixture_db [approved_link]) 1 2 owner_user () (fixture_db [])).
  reflexivity.
Defined.

(** X9: after a supplier removes a connection, the consumer company can ask
    for the link again: the request creates a fresh PENDING link. *)
Theorem remove_then_request_link (db : DB) (supplier_id consumer_cid : Z) (user : User) (u : unit)
    (db' : DB) (consumer : User) :
  remove_connection db supplier_id consumer_cid user = Ok (u, db') →
  user_company_id consumer = Some consumer_cid →
  company_has_type db (Some consumer_cid) CompanyType.CONSUMER = true →
  company_has_type db (Some supplier_id) CompanyType.SUPPLIER = true →
  ∃ db'', create_link_request db' consumer {| lc_supplier_id := supplier_id |}
            = Ok ({| link_id := next_link_id db; link_supplier_id := supplier_id;
                     link_consumer_id := consumer_cid; link_status := LinkStatus.PENDING |}, db'').
Proof.
  intros H Hu Hcons Hsup.
  destruct (remove_connection_Ok _ _ _ _ _ _ H) as (_ & _ & l & Hrows & Hdb).
  assert (Hcomp : companies db' = companies db) by (by rewrite Hdb).
  assert (Hnext : next_link_id db' = next_link_id db) by (by rewrite Hdb).
  destruct (create_link_request_fresh db' consumer consumer_cid supplier_id Hu)
    as (db'' & Hreq & _).
  - by rewrite (company_has_type_same _ _ _ _ Hcomp).
  - by rewrite (company_has_type_same _ _ _ _ Hcomp).
  - apply filter_none. intros x Hx Hp. rewrite Hdb in Hx. simpl in Hx.
    apply list_elem_of_filter in Hx as [Hid Hx].
    assert (Hin : x ∈ link_rows_for db supplier_id consumer_cid)
      by (apply list_elem_of_filter; auto).
    rewrite Hrows in Hin. apply list_elem_of_singleton in Hin. by subst.
  - exists db''. by rewrite <- Hnext.
Qed.

Lemma remove_then_request_link_witness :
  ∃ db'', create_link_request (fixture_db []) consumer_user {| lc_supplier_id := 1 |}
            = Ok ({| link_id := 1; link_supplier_id := 1; link_consumer_id := 2;
                     link_status := LinkStatus.PENDING |}, db'').
Proof.
  apply (remove_then_request_link (fixture_db [approved_link]) 1 2 owner_user () (fixture_db [])
           consumer_user); reflexivity.
Defined.

(** ** OrderService: order creation *)


(** The checks an order line has to pass in [create_order]. *)
Definition item_acceptable (db : DB) (supplier_id : Z) (item : OrderItemCreate) : Prop :=
  ∃ p, products db !! req_product_id item = Some p ∧ product_supplier_id p = supplier_id ∧
       product_is_active p = true ∧ min_order_qty p ≤ req_quantity item ≤ stock_quantity p.

Lemma check_order_items_bad db sid items item :
  item ∈ items → ¬ item_acceptable db sid item → ∃ e, check_order_items db sid items = Err e.
Proof.
  induction items as [|it rest IH]; intros Hin Hbad; [set_solver|]. simpl.
  destruct (products db !! req_product_id it) as [p|] eqn:Hp; [|eauto].
  case_bool_decide as Hs; [eauto|].
  destruct (product_is_active p) eqn:Ha; simpl; [|eauto].
  destruct (req_quantity it <? min_order_qty p) eqn:Hm; [eauto|].
  destruct (stock_quantity p <? req_quantity it) eqn:Hq; [eauto|].
  apply elem_of_cons in Hin as [-> | Hin].
  - exfalso. apply Hbad. apply Z.ltb_ge in Hm, Hq. exists p.
    split_and!; try done; try lia; by apply dec_stable.
  - destruct (IH Hin Hbad) as [e He]. rewrite He. eauto.
Qed.

Lemma create_order_bad_item db user order_data item :
  item ∈ od_items order_data → ¬ item_acceptable db (od_supplier_id order_data) item →
  ∃ e, create_order db user order_data = Err e.
Proof.
  intros Hin Hbad. destruct (check_order_items_bad _ _ _ _ Hin Hbad) as [e He].
  unfold create_order.
  destruct (negb (company_has_type db (user_company_id user) CompanyType.CONSUMER)); [eauto|].
  destruct (user_company_id user) as [cid|]; [|eauto].
  destruct (negb (company_has_type db (Some (od_supplier_id order_data)) CompanyType.SUPPLIER));
    [eauto|].
  unfold scalar_one_or_none.
  destruct (approved_link_rows db cid (od_supplier_id order_data)) as [|? [|? ?]]; simpl; [eauto| |eauto].
  rewrite He. eauto.
Qed.



(** X11: one unacceptable line (unknown product, another supplier's
    product, an inactive product, a quantity under the minimum or above the
    stock) makes the whole order fail, wherever it is in the list: no order
    and no line is written. *)
Theorem create_order_rejects_bad_item (db : DB) (user : User) (order_data : OrderCreate)
    (item : OrderItemCreate) :
  item ∈ od_items order_data → ¬ item_acceptable db (od_supplier_id order_data) item →
  (∃ e, create_order db user order_data = Err e) ∧
  after_request (create_order db user order_data) db = db.
Proof.
  intros Hin Hbad. destruct (create_order_bad_item _ user _ _ Hin Hbad) as [e He].
  rewrite He. eauto.
Qed.

(** An order of 1 unit of P then 5 of Q, whose stock is 3. *)
Definition order_1p_5q : OrderCreate := {| od_supplier_id := 1;
  od_items := [{| req_product_id := 100; req_quantity := 1 |}; {| req_product_id := 101; req_quantity := 5 |}] |}.

Lemma create_order_rejects_bad_item_witness :
  create_order (fixture_db [approved_link]) consumer_user order_1p_5q
    = raise 400 insufficient_stock_at_creation ∧
  after_request (create_order (fixture_db [approved_link]) consumer_user order_1p_5q)
                (fixture_db [approved_link]) = fixture_db [approved_link].
Proof.
  split; [reflexivity|].
  apply (create_order_rejects_bad_item (fixture_db [approved_link]) consumer_user order_1p_5q
           {| req_product_id := 101; req_quantity := 5 |}).
  - simpl. set_solver.
  - intros (p & Hp & _ & _ & _ & Hq). vm_compute in Hp. injection Hp as <-. simpl in Hq. lia.
Defined.

(** ** OrderService: status updates and reads *)

(** X12: stock moves only on the two inventory transitions; any other
    successful status change (re-accepting, cancelling a PENDING order,
    delivering, completing, reopening, ...) leaves every product and every
    order line as it was and only rewrites the order's status. *)
Theorem update_order_status_stock_untouched (db : DB) (oid : Z) (user : User) (new_status : OrderStatus.t)
    (order o' : Order) (db' : DB) :
  orders db !! oid = Some order →
  ¬ (new_status = OrderStatus.ACCEPTED ∧ status order = OrderStatus.PENDING) →
  ¬ (new_status ∈ [OrderStatus.CANCELLED; OrderStatus.REJECTED] ∧ status order = OrderStatus.ACCEPTED) →
  update_order_status db oid user new_status = Ok (o', db') →
  products db' = products db ∧ order_items db' = order_items db ∧
  orders db' = <[oid := with_status order new_status]> (orders db) ∧ o' = with_status order new_status.
Proof.
  intros Ho Hdec Hres. unfold update_order_status. rewrite Ho.
  destruct (check_order_permission user order new_status) as [[]|]; [|discriminate]. simpl.
  rewrite (bool_decide_false _ Hdec). simpl.
  case_bool_decide as Hin.
  - rewrite bool_decide_false by tauto. intros [= <- <-]. done.
  - intros [= <- <-]. done.
Qed.

Definition owner_user2 : User := {| user_id := 11; role := UserRole.SUPPLIER_MANAGER; user_company_id := Some 1 |}.

Lemma update_order_status_stock_untouched_witness :
  orders accepted_db !! 1 = Some (with_status accept_order OrderStatus.ACCEPTED) ∧
  ∃ db', update_order_status accepted_db 1 owner_user2 OrderStatus.IN_DELIVERY
           = Ok (with_status (with_status accept_order OrderStatus.ACCEPTED) OrderStatus.IN_DELIVERY, db') ∧
         products db' = products accepted_db.
Proof.
  split; [vm_compute; reflexivity|].
  eexists. split; [vm_compute; reflexivity|].
  apply (update_order_status_stock_untouched accepted_db 1 owner_user2 OrderStatus.IN_DELIVERY
           (with_status accept_order OrderStatus.ACCEPTED)
           (with_status (with_status accept_order OrderStatus.ACCEPTED) OrderStatus.IN_DELIVERY)).
  - vm_compute. reflexivity.
  - intros [? _]. discriminate.
  - intros [Hin _]. vm_compute in Hin. set_solver.
  - vm_compute. reflexivity.
Defined.

(** X13: a user whose company is neither the order's consumer nor its
    supplier can neither read the order (403) nor change its status (403),
    whatever their role and the requested status. *)
Theorem outsider_cannot_access_order (db : DB) (oid : Z) (user : User) (order : Order)
    (new_status : OrderStatus.t) :
  orders db !! oid = Some order →
  user_company_id user ≠ Some (consumer_id order) →
  user_company_id user ≠ Some (order_supplier_id order) →
  get_order_by_id db oid user = raise 403 order_access_denied ∧
  update_order_status db oid user new_status = raise 403 not_your_order.
Proof.
  intros Ho Hc Hs. unfold get_order_by_id, update_order_status. rewrite Ho.
  rewrite bool_decide_true by set_solver. split; [done|].
  unfold check_order_permission.
  destruct (role user); [rewrite (bool_decide_true _ Hc)|rewrite (bool_decide_true _ Hs)..]; done.
Qed.

Lemma outsider_cannot_access_order_witness :
  orders accepted_db !! 1 = Some (with_status accept_order OrderStatus.ACCEPTED) ∧
  get_order_by_id accepted_db 1 consumer_user3 = raise 403 order_access_denied ∧
  update_order_status accepted_db 1 consumer_user3 OrderStatus.CANCELLED = raise 403 not_your_order.
Proof.
  assert (Ho : orders accepted_db !! 1 = Some (with_status accept_order OrderStatus.ACCEPTED))
    by (vm_compute; reflexivity).
  split; [exact Ho|].
  apply (outsider_cannot_access_order accepted_db 1 consumer_user3 _ OrderStatus.CANCELLED Ho);
    simpl; congruence.
Defined.

(** X14: a CANCELLED order can be set back to ACCEPTED by its supplier
    without any stock being taken (the decrement only runs from PENDING),
    and cancelling it again restores its quantities once more: each
    product's stock ends up raised by the order's quantity of it. *)
Theorem cancelled_order_reaccepted_restores_again (db : DB) (oid : Z) (order : Order) (user : User)
    (o1 o2 : Order) (db1 db2 : DB) :
  orders db !! oid = Some order →
  status order = OrderStatus.CANCELLED →
  update_order_status db oid user OrderStatus.ACCEPTED = Ok (o1, db1) →
  update_order_status db1 oid user OrderStatus.CANCELLED = Ok (o2, db2) →
  products db1 = products db ∧
  ∀ k, products db2 !! k = shift_stock (λ k, qty_for k (items_of db (order_id order))) (products db) k.
Proof.
  intros Ho Hst H1 H2. unfold update_order_status in H1. rewrite Ho in H1.
  destruct (check_order_permission user order OrderStatus.ACCEPTED) as [[]|]; [|discriminate].
  simpl in H1. rewrite Hst in H1. simpl in H1. injection H1 as <- <-.
  split; [done|]. intros k.
  unfold update_order_status in H2. simpl in H2. rewrite lookup_insert_eq in H2.
  destruct (check_order_permission user (with_status order OrderStatus.ACCEPTED) OrderStatus.CANCELLED)
    as [[]|]; [|discriminate].
  simpl in H2. injection H2 as <- <-. simpl.
  apply restore_items_lookup.
Qed.

Definition reaccepted_db : DB :=
  after_request (update_order_status cancelled_db 1 owner_user OrderStatus.ACCEPTED) cancelled_db.

Lemma cancelled_order_reaccepted_restores_again_witness :
  stock_of cancelled_db 100 = Some 10 ∧ stock_of cancelled_db 101 = Some 3 ∧
  ∃ o2 db2, update_order_status reaccepted_db 1 owner_user OrderStatus.CANCELLED = Ok (o2, db2) ∧
    stock_of db2 100 = Some 15 ∧ stock_of db2 101 = Some 5.
Proof.
  split; [vm_compute; reflexivity|]. split; [vm_compute; reflexivity|].
  eexists _, _. split; [vm_compute; reflexivity|].
  destruct (cancelled_order_reaccepted_restores_again cancelled_db 1
              (with_status (with_status (with_status accept_order OrderStatus.ACCEPTED)
                                        OrderStatus.CANCELLED) OrderStatus.CANCELLED)
              owner_user _ _ reaccepted_db _ ltac:(vm_compute; reflexivity) eq_refl
              ltac:(vm_compute; reflexivity) ltac:(vm_compute; reflexivity)) as [_ H].
  unfold stock_of. rewrite !H. split; vm_compute; reflexivity.
Defined.

(** ** ProductService: product pages, updates, deletion, catalog filter *)

(** X15: the product page does not apply the catalog's filters: a consumer
    with an APPROVED link to the supplier gets an inactive or out-of-stock
    product by id, although no catalog query ever lists it. *)
Theorem product_page_ignores_catalog_filters (db : DB) (pid : Z) (user : User) (p : Product) :
  role user = UserRole.CONSUMER →
  products db !! pid = Some p →
  product_supplier_id p ∈ get_approved_supplier_ids db (user_company_id user) →
  product_is_active p = false ∨ stock_quantity p ≤ 0 →
  get_product_by_id db pid user = Ok p ∧
  ∀ fs ps, get_catalog_for_consumer db user fs = Ok ps → p ∉ ps.
Proof.
  intros Hr Hp Ha Hvis. split.
  - unfold get_product_by_id. rewrite Hp, Hr. by rewrite (bool_decide_false _ (λ H, H Ha)).
  - intros fs ps Hc Hin.
    destruct (catalog_rows_sound _ _ _ _ _ Hc Hin) as (_ & Hact & Hst & _).
    destruct Hvis; [congruence|lia].
Qed.

Definition hidden_product_db : DB :=
  set_products (fixture_db [approved_link])
    (<[101 := with_stock prod_q 0]> (products (fixture_db [approved_link]))).

Lemma product_page_ignores_catalog_filters_witness :
  get_product_by_id hidden_product_db 101 consumer_user = Ok (with_stock prod_q 0) ∧
  get_catalog_for_consumer hidden_product_db consumer_user None = Ok [prod_p].
Proof.
  split; [|vm_compute; reflexivity].
  apply (product_page_ignores_catalog_filters hidden_product_db 101 consumer_user (with_stock prod_q 0)).
  - reflexivity.
  - vm_compute. reflexivity.
  - vm_compute. set_solver.
  - right. simpl. lia.
Defined.

(** X16: whoever gets a product by id is entitled to it: a consumer only
    for a supplier it has an APPROVED link with, a supplier-side user only
    for a product of their own company. *)
Theorem get_product_by_id_authorised (db : DB) (pid : Z) (user : User) (p : Product) :
  get_product_by_id db pid user = Ok p →
  products db !! pid = Some p ∧
  (role user = UserRole.CONSUMER →
   ∃ l, l ∈ links db ∧ user_company_id user = Some (link_consumer_id l) ∧
        link_status l = LinkStatus.APPROVED ∧ link_supplier_id l = product_supplier_id p) ∧
  (role user ≠ UserRole.CONSUMER → user_company_id user = Some (product_supplier_id p)).
Proof.
  unfold get_product_by_id. destruct (products db !! pid) as [q|]; [|discriminate].
  destruct (role user) eqn:Hr.
  - case_bool_decide as Ha; [discriminate|]. intros [= <-].
    split_and!; [done| |done]. intros _. apply approved_supplier_ids_spec.
    by destruct (decide (product_supplier_id q ∈ get_approved_supplier_ids db (user_company_id user))).
  - case_bool_decide as Hs; [discriminate|]. intros [= <-].
    split_and!; [done|done|]. intros _.
    by destruct (decide (Some (product_supplier_id q) = user_company_id user)).
  - case_bool_decide as Hs; [discriminate|]. intros [= <-].
    split_and!; [done|done|]. intros _.
    by destruct (decide (Some (product_supplier_id q) = user_company_id user)).
  - case_bool_decide as Hs; [discriminate|]. intros [= <-].
    split_and!; [done|done|]. intros _.
    by destruct (decide (Some (product_supplier_id q) = user_company_id user)).
Qed.

Lemma get_product_by_id_authorised_witness :
  get_product_by_id (fixture_db []) 100 owner_user = Ok prod_p ∧
  user_company_id owner_user = Some (product_supplier_id prod_p).
Proof.
  assert (H : get_product_by_id (fixture_db []) 100 owner_user = Ok prod_p) by reflexivity.
  split; [exact H|].
  destruct (get_product_by_id_authorised _ _ _ _ H) as (_ & _ & H3).
  apply H3. discriminate.
Defined.

(** X17: a product edit through [PUT /products/{id}] (without an image)
    changes only that product, only when it belongs to the editor's company,
    keeps its id and supplier, never makes a stock negative (pydantic
    rejects [stock_quantity < 0]), and, when a stock is given without an
    explicit [is_active], sets [is_active] to [stock > 0]. *)
Theorem route_update_product_effect (db : DB) (user : User) (pid : Z) (product_data : ProductUpdate)
    (p' : Product) (db' : DB) :
  route_update_product db user pid product_data = Ok (p', db') →
  stock_nonneg db →
  stock_nonneg db' ∧
  products db' !! pid = Some p' ∧ (∀ k, k ≠ pid → products db' !! k = products db !! k) ∧
  role user ∈ [UserRole.SUPPLIER_OWNER; UserRole.SUPPLIER_MANAGER] ∧
  (∃ p, products db !! pid = Some p ∧ user_company_id user = Some (product_supplier_id p) ∧
        product_id p' = product_id p ∧ product_supplier_id p' = product_supplier_id p) ∧
  (pu_is_active product_data = None → ∀ s, pu_stock_quantity product_data = Some s →
   product_is_active p' = bool_decide (0 < s)) ∧
  orders db' = orders db ∧ order_items db' = order_items db.
Proof.
  unfold route_update_product, require_roles. case_bool_decide as Hr; [|discriminate]. simpl.
  destruct (product_update_valid product_data) eqn:Hv; simpl; [|discriminate].
  unfold update_product. rewrite (bool_decide_false _ (λ H, H Hr)).
  destruct (products db !! pid) as [p|] eqn:Hp; [|discriminate].
  case_bool_decide as Hs; [discriminate|]. intros [= <- <-] Hnn. simpl.
  unfold product_update_valid in Hv. apply andb_prop in Hv as [Hv _].
  apply andb_prop in Hv as [_ Hst].
  split_and!; [| |intros k Hk; by apply lookup_insert_ne|exact Hr| | |done|done].
  - apply map_Forall_insert_2; [|done]. simpl.
    destruct (pu_stock_quantity product_data) as [s|]; simpl in *.
    + by apply Z.leb_le.
    + exact (Hnn pid p Hp).
  - apply lookup_insert_eq.
  - exists p. split_and!; try done;
    by destruct (decide (Some (product_supplier_id p) = user_company_id user)).
  - intros Hna s Hs'. simpl. by rewrite Hna, Hs'.
Qed.

(** Product Q's stock set to 0 by its supplier's owner. *)
Definition restock_zero : ProductUpdate :=
  {| pu_price := None; pu_stock_quantity := Some 0; pu_min_order_qty := None; pu_is_active := None |}.

Lemma route_update_product_effect_witness :
  ∃ p' db', route_update_product (fixture_db []) owner_user 101 restock_zero = Ok (p', db') ∧
    product_is_active p' = false ∧ stock_nonneg db'.
Proof.
  eexists _, _. split; [reflexivity|].
  destruct (route_update_product_effect (fixture_db []) owner_user 101 restock_zero _ _ eq_refl)
    as (Hnn & _ & _ & _ & _ & Hact & _).
  { unfold stock_nonneg.
    apply (bool_decide_unpack (map_Forall (λ _ p, 0 ≤ stock_quantity p) (products (fixture_db [])))).
    vm_compute. exact I. }
  split; [|exact Hnn]. exact (Hact eq_refl 0 eq_refl).
Defined.

(** X18: with a non-zero supplier filter the supplier has an APPROVED link
    with, the catalog lists exactly that supplier's active, in-stock
    products. *)
Theorem catalog_supplier_filter (db : DB) (consumer : User) (supplier_id : Z) :
  supplier_id ≠ 0 →
  supplier_id ∈ get_approved_supplier_ids db (user_company_id consumer) →
  ∃ rows, get_catalog_for_consumer db consumer (Some supplier_id) = Ok rows ∧
  ∀ p, p ∈ rows ↔ (∃ k, products db !! k = Some p) ∧ product_supplier_id p = supplier_id ∧
                  product_is_active p = true ∧ 0 < stock_quantity p.
Proof.
  intros Hz Ha. unfold get_catalog_for_consumer. cbv zeta.
  destruct (get_approved_supplier_ids db (user_company_id consumer)) as [|a rest] eqn:Hids;
    [set_solver|].
  rewrite (bool_decide_true _ Hz), (bool_decide_false _ (λ H, H Ha)).
  eexists. split; [reflexivity|]. intros p.
  rewrite !list_elem_of_filter, product_rows_spec. split.
  - intros (Hs & (_ & Hact & Hst) & Hk). auto.
  - intros (Hk & Hs & Hact & Hst). rewrite Hs. auto.
Qed.

Lemma catalog_supplier_filter_witness :
  ∃ rows, get_catalog_for_consumer (fixture_db [approved_link]) consumer_user (Some 1) = Ok rows ∧
    ∀ p, p ∈ rows ↔ (∃ k, products (fixture_db [approved_link]) !! k = Some p) ∧
                    product_supplier_id p = 1 ∧ product_is_active p = true ∧ 0 < stock_quantity p.
Proof.
  apply catalog_supplier_filter; [lia|]. vm_compute. set_solver.
Defined.

(** X19: blocking only needs the target company to exist and the pair not to
    be blacklisted yet; the target's type is not checked, so a supplier may
    blacklist another supplier, or its own company. *)
Theorem block_consumer_any_company (db : DB) (supplier_id : Z) (data : BlacklistCreate)
    (blocker : User) (c : Company) :
  companies db !! bc_consumer_id data = Some c →
  blacklist_rows db supplier_id (bc_consumer_id data) = [] →
  ∃ db', block_consumer db supplier_id data blocker
           = Ok ({| blacklist_id := next_blacklist_id db; bl_supplier_id := supplier_id;
                    bl_consumer_id := bc_consumer_id data; blocked_by := Some (user_id blocker);
                    reason := bc_reason data |}, db').
Proof.
  intros Hc Hrows. unfold block_consumer. cbv zeta. rewrite Hc.
  fold (blacklist_rows db supplier_id (bc_consumer_id data)). rewrite Hrows. simpl. eauto.
Qed.

Definition self_block : BlacklistCreate := {| bc_consumer_id := 1; bc_reason := None |}.

Lemma block_consumer_any_company_witness :
  company_type <$> companies (fixture_db []) !! 1 = Some CompanyType.SUPPLIER ∧
  ∃ db', block_consumer (fixture_db []) 1 self_block owner_user
           = Ok ({| blacklist_id := 1; bl_supplier_id := 1; bl_consumer_id := 1;
                    blocked_by := Some 10; reason := None |}, db').
Proof.
  split; [reflexivity|].
  apply (block_consumer_any_company (fixture_db []) 1 self_block owner_user supplier_co); reflexivity.
Defined.
